(** * The REST API tutorial script (cha16-06_REST_APIs_Tutorial.py)

    A shallow embedding of the executable part of the tutorial: the
    sections that call the [requests] library (GET, POST, PUT, PATCH,
    DELETE) against JSONPlaceholder, test [status_code] and [reason], decode
    the body with [json.loads] and print a report.

    The module-level script is straight-line Python over global variables.
    It is modelled in a state-and-exception monad over a world made of the
    global namespace (a dictionary from names to values), the remote
    service, the log of requests handed to the transport and the lines
    written to standard output. *)

From Stdlib Require Import ZArith String Ascii List Lia Bool.
From Stdlib Require Import Decimal DecimalFacts DecimalPos DecimalN DecimalZ.
From stdpp Require Import base option gmap strings.
Import ListNotations.

Local Open Scope Z_scope.
Local Open Scope char_scope.
Local Open Scope list_scope.

(** ** JSON values

    The Python values the script handles are the images of JSON documents:
    [None], [bool], [int], [str], [list] and [dict] with string keys.  A
    [dict] keeps insertion order, so it is an association list; a
    well-formed dictionary has no repeated key.  Characters are the code
    points U+0000..U+00FF.  A [float] and a string with a character above
    U+00FF have no image among these values: a document that holds one
    is recognized as JSON by [json_loads] below, which then answers
    [Beyond] instead of a value. *)

#[warnings="-register-all"]
Inductive json : Type :=
| JNull
| JBool (b : bool)
| JInt (z : Z)
| JStr (s : string)
| JArr (items : list json)
| JObj (members : list (string * json)).

Module Dict.

(** [d.get(k)] *)
Fixpoint get {A} (k : string) (d : list (string * A)) : option A :=
  match d with
  | [] => None
  | (k', v) :: d' => if String.eqb k k' then Some v else get k d'
  end.

(** [d[k] = v]: an existing key keeps its position, a new key goes last. *)
Fixpoint set {A} (k : string) (v : A) (d : list (string * A))
  : list (string * A) :=
  match d with
  | [] => [(k, v)]
  | (k', v') :: d' =>
      if String.eqb k k' then (k, v) :: d' else (k', v') :: set k v d'
  end.

(** [dict(pairs)] *)
Definition of_pairs {A} (pairs : list (string * A)) : list (string * A) :=
  fold_left (fun d kv => set (fst kv) (snd kv) d) pairs [].

End Dict.

(** Well-formed values: every dictionary, at any depth, has distinct keys. *)
Fixpoint wf_json (v : json) : Prop :=
  match v with
  | JArr items => (fix all l := match l with
                                | [] => True
                                | x :: l' => wf_json x /\ all l'
                                end) items
  | JObj members =>
      NoDup (map fst members) /\
      (fix all l := match l with
                    | [] => True
                    | kv :: l' => wf_json (snd kv) /\ all l'
                    end) members
  | _ => True
  end.

Definition wf_items (items : list json) : Prop :=
  (fix all l := match l with
                | [] => True
                | x :: l' => wf_json x /\ all l'
                end) items.

Definition wf_members (members : list (string * json)) : Prop :=
  (fix all l := match l with
                | [] => True
                | kv :: l' => wf_json (snd kv) /\ all l'
                end) members.

(** ** [json.dumps] with the default options

    [ensure_ascii=True], item separator [", "], key separator [": "]. *)

Module Encode.

Definition hex_digit (n : N) : ascii :=
  match n with
  | 0%N => "0" | 1%N => "1" | 2%N => "2" | 3%N => "3" | 4%N => "4"
  | 5%N => "5" | 6%N => "6" | 7%N => "7" | 8%N => "8" | 9%N => "9"
  | 10%N => "a" | 11%N => "b" | 12%N => "c" | 13%N => "d" | 14%N => "e"
  | _ => "f"
  end.

(** One character of a string literal: the short escapes, the printable
    ASCII range as it is, and a [\u00XX] escape for the rest. *)
Definition escape_char (c : ascii) : list ascii :=
  let n := N_of_ascii c in
  if (n =? 34)%N then ["\"; "034"]
  else if (n =? 92)%N then ["\"; "\"]
  else if (n =? 10)%N then ["\"; "n"]
  else if (n =? 13)%N then ["\"; "r"]
  else if (n =? 9)%N then ["\"; "t"]
  else if (n =? 8)%N then ["\"; "b"]
  else if (n =? 12)%N then ["\"; "f"]
  else if ((32 <=? n) && (n <=? 126))%N then [c]
  else ["\"; "u"; "0"; "0"; hex_digit (n / 16); hex_digit (n mod 16)].

Fixpoint escape (s : string) : list ascii :=
  match s with
  | EmptyString => []
  | String c s' => escape_char c ++ escape s'
  end.

Definition str (s : string) : list ascii := "034" :: escape s ++ ["034"].

Fixpoint uint (d : Decimal.uint) : list ascii :=
  match d with
  | Nil => []
  | D0 d' => "0" :: uint d'
  | D1 d' => "1" :: uint d'
  | D2 d' => "2" :: uint d'
  | D3 d' => "3" :: uint d'
  | D4 d' => "4" :: uint d'
  | D5 d' => "5" :: uint d'
  | D6 d' => "6" :: uint d'
  | D7 d' => "7" :: uint d'
  | D8 d' => "8" :: uint d'
  | D9 d' => "9" :: uint d'
  end.

Definition int (z : Z) : list ascii :=
  match Z.to_int z with
  | Pos d => uint d
  | Neg d => "-" :: uint d
  end.

Fixpoint value (v : json) : list ascii :=
  match v with
  | JNull => ["n"; "u"; "l"; "l"]
  | JBool true => ["t"; "r"; "u"; "e"]
  | JBool false => ["f"; "a"; "l"; "s"; "e"]
  | JInt z => int z
  | JStr s => str s
  | JArr items =>
      "[" :: (fix elems l :=
                match l with
                | [] => []
                | [x] => value x
                | x :: l' => value x ++ "," :: " " :: elems l'
                end) items ++ ["]"]
  | JObj members =>
      "{" :: (fix membs l :=
                match l with
                | [] => []
                | [kv] => str (fst kv) ++ ":" :: " " :: value (snd kv)
                | kv :: l' =>
                    str (fst kv) ++ ":" :: " " :: value (snd kv)
                      ++ "," :: " " :: membs l'
                end) members ++ ["}"]
  end.

(** The items of an array and the members of an object, separators
    included, as [value] writes them. *)
Definition elems (items : list json) : list ascii :=
  (fix elems l :=
     match l with
     | [] => []
     | [x] => value x
     | x :: l' => value x ++ "," :: " " :: elems l'
     end) items.

Definition membs (members : list (string * json)) : list ascii :=
  (fix membs l :=
     match l with
     | [] => []
     | [kv] => str (fst kv) ++ ":" :: " " :: value (snd kv)
     | kv :: l' =>
         str (fst kv) ++ ":" :: " " :: value (snd kv)
           ++ "," :: " " :: membs l'
     end) members.

End Encode.

Definition json_dumps (v : json) : string :=
  string_of_list_ascii (Encode.value v).

(** ** [json.loads]

    The scanner of the standard decoder: literals, numbers, strings with
    their escapes, arrays and objects, white space between tokens, and
    nothing but white space after the document.  It comes twice: [value]
    builds the decoded value when the document holds integers and
    characters up to U+00FF only, and [accepts] follows the whole grammar
    of the decoder (fractions and exponents, [NaN], [Infinity],
    [-Infinity], any [\uXXXX]) without building anything. *)

Module Decode.

Definition is_ws (c : ascii) : bool :=
  let n := N_of_ascii c in
  ((n =? 32) || (n =? 9) || (n =? 10) || (n =? 13))%N.

Fixpoint skip_ws (s : list ascii) : list ascii :=
  match s with
  | c :: s' => if is_ws c then skip_ws s' else s
  | [] => []
  end.

Definition hex_value (c : ascii) : option N :=
  let n := N_of_ascii c in
  if ((48 <=? n) && (n <=? 57))%N then Some (n - 48)%N
  else if ((97 <=? n) && (n <=? 102))%N then Some (n - 87)%N
  else if ((65 <=? n) && (n <=? 70))%N then Some (n - 55)%N
  else None.

(** [\uXXXX]: the code point, when it is one of the model's characters. *)
Definition unicode_escape (a b c d : ascii) : option ascii :=
  match hex_value a, hex_value b, hex_value c, hex_value d with
  | Some x, Some y, Some z, Some w =>
      if ((x =? 0) && (y =? 0))%N then Some (ascii_of_N (16 * z + w))
      else None
  | _, _, _, _ => None
  end.

Definition cons_char (c : ascii) (o : option (string * list ascii))
  : option (string * list ascii) :=
  match o with
  | Some (str, r) => Some (String c str, r)
  | None => None
  end.

(** The body of a string literal, after the opening quote, up to and
    including the closing quote. *)
Fixpoint string_body (s : list ascii) : option (string * list ascii) :=
  match s with
  | [] => None
  | "034" :: r => Some (EmptyString, r)
  | "\" :: r =>
      match r with
      | "034" :: r' => cons_char "034" (string_body r')
      | "\" :: r' => cons_char "\" (string_body r')
      | "/" :: r' => cons_char "/" (string_body r')
      | "b" :: r' => cons_char "008" (string_body r')
      | "f" :: r' => cons_char "012" (string_body r')
      | "n" :: r' => cons_char "010" (string_body r')
      | "r" :: r' => cons_char "013" (string_body r')
      | "t" :: r' => cons_char "009" (string_body r')
      | "u" :: a :: b :: c :: d :: r' =>
          match unicode_escape a b c d with
          | Some ch => cons_char ch (string_body r')
          | None => None
          end
      | _ => None
      end
  | c :: r =>
      if (N_of_ascii c <? 32)%N then None else cons_char c (string_body r)
  end.

Definition digit_of (c : ascii) : option (Decimal.uint -> Decimal.uint) :=
  match c with
  | "0" => Some D0 | "1" => Some D1 | "2" => Some D2 | "3" => Some D3
  | "4" => Some D4 | "5" => Some D5 | "6" => Some D6 | "7" => Some D7
  | "8" => Some D8 | "9" => Some D9
  | _ => None
  end.

(** The longest run of decimal digits at the head of the input. *)
Fixpoint digits (s : list ascii) : Decimal.uint * list ascii :=
  match s with
  | c :: r =>
      match digit_of c with
      | Some d => let (u, r') := digits r in (d u, r')
      | None => (Nil, s)
      end
  | [] => (Nil, [])
  end.

(** An integer literal: an optional minus sign, then either a single
    zero or a non-zero digit followed by any digits.  A zero followed by
    a digit is refused: the decoder stops after the zero and nothing that
    may follow a value starts with a digit.  Literals that the decoder
    reads as floats (a fraction, an exponent, [NaN], [Infinity]) are
    read by [number] and [constant] below: here the text left after the
    integer part makes the enclosing scan fail. *)
Definition integer (s : list ascii) : option (Z * list ascii) :=
  let (neg, s1) := match s with
                   | "-" :: r => (true, r)
                   | _ => (false, s)
                   end in
  match digits s1 with
  | (Nil, _) => None
  | (D0 Nil, r) => Some (0, r)
  | (D0 _, _) => None
  | (u, r) => Some (if neg : bool then - Z.of_uint u else Z.of_uint u, r)
  end.

(** Result of scanning a prefix of the input: a value and the rest of
    the input, no way through, or not enough fuel. *)
Inductive scan (A : Type) : Type :=
| Done (a : A) (rest : list ascii)
| Bad
| Fuel.
Arguments Done {A} a rest.
Arguments Bad {A}.
Arguments Fuel {A}.

Fixpoint value (fuel : nat) (s : list ascii) {struct fuel} : scan json :=
  match fuel with
  | O => Fuel
  | S n =>
      match s with
      | "034" :: r =>
          match string_body r with
          | Some (str, r') => Done (JStr str) r'
          | None => Bad
          end
      | "{" :: r =>
          match skip_ws r with
          | "}" :: r' => Done (JObj []) r'
          | "034" :: r' =>
              match members n r' with
              | Done l r'' => Done (JObj (Dict.of_pairs l)) r''
              | Bad => Bad
              | Fuel => Fuel
              end
          | _ => Bad
          end
      | "[" :: r =>
          match skip_ws r with
          | "]" :: r' => Done (JArr []) r'
          | r' =>
              match elems n r' with
              | Done l r'' => Done (JArr l) r''
              | Bad => Bad
              | Fuel => Fuel
              end
          end
      | "n" :: "u" :: "l" :: "l" :: r => Done JNull r
      | "t" :: "r" :: "u" :: "e" :: r => Done (JBool true) r
      | "f" :: "a" :: "l" :: "s" :: "e" :: r => Done (JBool false) r
      | _ =>
          match integer s with
          | Some (z, r) => Done (JInt z) r
          | None => Bad
          end
      end
  end

(** The items of an array, up to and including the closing bracket. *)
with elems (fuel : nat) (s : list ascii) {struct fuel} : scan (list json) :=
  match fuel with
  | O => Fuel
  | S n =>
      match value n s with
      | Done v r =>
          match skip_ws r with
          | "]" :: r' => Done [v] r'
          | "," :: r' =>
              match elems n (skip_ws r') with
              | Done l r'' => Done (v :: l) r''
              | Bad => Bad
              | Fuel => Fuel
              end
          | _ => Bad
          end
      | Bad => Bad
      | Fuel => Fuel
      end
  end

(** The pairs of an object, from after the opening quote of a key up to
    and including the closing brace. *)
with members (fuel : nat) (s : list ascii) {struct fuel}
  : scan (list (string * json)) :=
  match fuel with
  | O => Fuel
  | S n =>
      match string_body s with
      | None => Bad
      | Some (k, r) =>
          match skip_ws r with
          | ":" :: r1 =>
              match value n (skip_ws r1) with
              | Done v r2 =>
                  match skip_ws r2 with
                  | "}" :: r3 => Done [(k, v)] r3
                  | "," :: r3 =>
                      match skip_ws r3 with
                      | "034" :: r4 =>
                          match members n r4 with
                          | Done l r5 => Done ((k, v) :: l) r5
                          | Bad => Bad
                          | Fuel => Fuel
                          end
                      | _ => Bad
                      end
                  | _ => Bad
                  end
              | Bad => Bad
              | Fuel => Fuel
              end
          | _ => Bad
          end
      end
  end.

(** [JSONDecoder.decode]: one document, white space around it. *)
Definition document (s : list ascii) : scan json :=
  match value (2 * length s + 2) (skip_ws s) with
  | Done v r =>
      match skip_ws r with
      | [] => Done v []
      | _ => Bad
      end
  | Bad => Bad
  | Fuel => Fuel
  end.

(** *** The grammar in full

    What the decoder accepts, whatever the value: the same scan with
    every string literal and every number of the grammar. *)

(** The body of a string literal, as [string_body] reads it, with any
    four hexadecimal digits after [\u]; the rest of the input. *)
Fixpoint literal_body (s : list ascii) : option (list ascii) :=
  match s with
  | [] => None
  | "034" :: r => Some r
  | "\" :: r =>
      match r with
      | "034" :: r' => literal_body r'
      | "\" :: r' => literal_body r'
      | "/" :: r' => literal_body r'
      | "b" :: r' => literal_body r'
      | "f" :: r' => literal_body r'
      | "n" :: r' => literal_body r'
      | "r" :: r' => literal_body r'
      | "t" :: r' => literal_body r'
      | "u" :: a :: b :: c :: d :: r' =>
          match hex_value a, hex_value b, hex_value c, hex_value d with
          | Some _, Some _, Some _, Some _ => literal_body r'
          | _, _, _, _ => None
          end
      | _ => None
      end
  | c :: r =>
      if (N_of_ascii c <? 32)%N then None else literal_body r
  end.

(** The input after [p], when the input starts with [p]. *)
Fixpoint after (p s : list ascii) : option (list ascii) :=
  match p, s with
  | [], _ => Some s
  | c :: p', c' :: s' => if Ascii.eqb c c' then after p' s' else None
  | _ :: _, [] => None
  end.

(** A fraction is a point followed by at least one digit; without the
    digit the number ends before the point. *)
Definition fraction (s : list ascii) : list ascii :=
  match s with
  | "." :: c :: r =>
      match digit_of c with
      | Some _ => snd (digits r)
      | None => s
      end
  | _ => s
  end.

(** An exponent is [e] or [E], an optional sign and at least one digit;
    without the digit the number ends before the letter. *)
Definition exponent (s : list ascii) : list ascii :=
  let digits_after r :=
    match digits r with
    | (Nil, _) => s
    | (_, r') => r'
    end in
  let signed r :=
    match r with
    | "+" :: r' => digits_after r'
    | "-" :: r' => digits_after r'
    | _ => digits_after r
    end in
  match s with
  | "e" :: r => signed r
  | "E" :: r => signed r
  | _ => s
  end.

(** A number: an optional minus sign, a zero or a non-zero digit followed
    by any digits, then an optional fraction and an optional exponent;
    the rest of the input. *)
Definition number (s : list ascii) : option (list ascii) :=
  let s1 := match s with
            | "-" :: r => r
            | _ => s
            end in
  match s1 with
  | "0" :: r => Some (exponent (fraction r))
  | c :: r =>
      match digit_of c with
      | Some _ => Some (exponent (fraction (snd (digits r))))
      | None => None
      end
  | [] => None
  end.

(** The three constants the decoder reads besides [null], [true] and
    [false]. *)
Definition constant (s : list ascii) : option (list ascii) :=
  match after ["N"; "a"; "N"] s with
  | Some r => Some r
  | None =>
      match after ["I"; "n"; "f"; "i"; "n"; "i"; "t"; "y"] s with
      | Some r => Some r
      | None => after ["-"; "I"; "n"; "f"; "i"; "n"; "i"; "t"; "y"] s
      end
  end.

Fixpoint accepts (fuel : nat) (s : list ascii) {struct fuel} : scan unit :=
  match fuel with
  | O => Fuel
  | S n =>
      match s with
      | "034" :: r =>
          match literal_body r with
          | Some r' => Done tt r'
          | None => Bad
          end
      | "{" :: r =>
          match skip_ws r with
          | "}" :: r' => Done tt r'
          | "034" :: r' => accepts_members n r'
          | _ => Bad
          end
      | "[" :: r =>
          match skip_ws r with
          | "]" :: r' => Done tt r'
          | r' => accepts_elems n r'
          end
      | "n" :: "u" :: "l" :: "l" :: r => Done tt r
      | "t" :: "r" :: "u" :: "e" :: r => Done tt r
      | "f" :: "a" :: "l" :: "s" :: "e" :: r => Done tt r
      | _ =>
          match constant s with
          | Some r => Done tt r
          | None =>
              match number s with
              | Some r => Done tt r
              | None => Bad
              end
          end
      end
  end

with accepts_elems (fuel : nat) (s : list ascii) {struct fuel} : scan unit :=
  match fuel with
  | O => Fuel
  | S n =>
      match accepts n s with
      | Done _ r =>
          match skip_ws r with
          | "]" :: r' => Done tt r'
          | "," :: r' => accepts_elems n (skip_ws r')
          | _ => Bad
          end
      | Bad => Bad
      | Fuel => Fuel
      end
  end

with accepts_members (fuel : nat) (s : list ascii) {struct fuel}
  : scan unit :=
  match fuel with
  | O => Fuel
  | S n =>
      match literal_body s with
      | None => Bad
      | Some r =>
          match skip_ws r with
          | ":" :: r1 =>
              match accepts n (skip_ws r1) with
              | Done _ r2 =>
                  match skip_ws r2 with
                  | "}" :: r3 => Done tt r3
                  | "," :: r3 =>
                      match skip_ws r3 with
                      | "034" :: r4 => accepts_members n r4
                      | _ => Bad
                      end
                  | _ => Bad
                  end
              | Bad => Bad
              | Fuel => Fuel
              end
          | _ => Bad
          end
      end
  end.

(** One document of the grammar, white space around it. *)
Definition well_formed (s : list ascii) : scan unit :=
  match accepts (2 * length s + 2) (skip_ws s) with
  | Done _ r =>
      match skip_ws r with
      | [] => Done tt []
      | _ => Bad
      end
  | Bad => Bad
  | Fuel => Fuel
  end.

(** What may follow a number: anything but a digit. *)
Definition no_digit_head (rest : list ascii) : Prop :=
  match rest with
  | [] => True
  | c :: _ => digit_of c = None
  end.

(** First characters of an encoded value. *)
Definition value_head (c : ascii) : bool :=
  match c with
  | "034" | "{" | "[" | "n" | "t" | "f" | "-"
  | "0" | "1" | "2" | "3" | "4" | "5" | "6" | "7" | "8" | "9" => true
  | _ => false
  end.

Definition int_head (c : ascii) : bool :=
  match c with
  | "-" | "0" | "1" | "2" | "3" | "4" | "5" | "6" | "7" | "8" | "9" => true
  | _ => false
  end.

End Decode.

(** What [json.loads] does with a text: it returns a value of the model
    ([Decoded]); it raises [json.JSONDecodeError], the text being no
    document of the grammar ([Invalid]); or it returns a value of which
    the model says nothing, the text being a document of the grammar
    that holds a [float] or a character above U+00FF ([Beyond]).
    [Invalid] is exactly the texts that [Decode.well_formed] does not
    get through ([Codec.loads_invalid] below). *)
Inductive decoded :=
| Decoded (v : json)
| Invalid
| Beyond.

Definition json_loads (s : string) : decoded :=
  match Decode.document (list_ascii_of_string s) with
  | Decode.Done v _ => Decoded v
  | _ =>
      match Decode.well_formed (list_ascii_of_string s) with
      | Decode.Bad => Invalid
      | _ => Beyond
      end
  end.

(** ** Python values and operators used by the script *)

Local Open Scope string_scope.

(** [a == b] on decoded values.  [bool] is a subclass of [int], so [True]
    equals [1]; lists compare item by item; dictionaries compare as
    mappings, whatever the order of their keys. *)
Fixpoint py_eq (a b : json) {struct a} : bool :=
  match a, b with
  | JNull, JNull => true
  | JBool x, JBool y => Bool.eqb x y
  | JBool x, JInt y => Z.eqb (Z.b2z x) y
  | JInt x, JBool y => Z.eqb x (Z.b2z y)
  | JInt x, JInt y => Z.eqb x y
  | JStr x, JStr y => String.eqb x y
  | JArr xs, JArr ys =>
      (fix items xs ys {struct xs} :=
         match xs, ys with
         | [], [] => true
         | x :: xs', y :: ys' => py_eq x y && items xs' ys'
         | _, _ => false
         end) xs ys
  | JObj xs, JObj ys =>
      Nat.eqb (length xs) (length ys) &&
      (fix every xs {struct xs} :=
         match xs with
         | [] => true
         | kv :: xs' =>
             match Dict.get (fst kv) ys with
             | Some w => py_eq (snd kv) w && every xs'
             | None => false
             end
         end) xs
  | _, _ => false
  end.

(** [type(v).__name__] *)
Definition py_type (v : json) : string :=
  match v with
  | JNull => "NoneType"
  | JBool _ => "bool"
  | JInt _ => "int"
  | JStr _ => "str"
  | JArr _ => "list"
  | JObj _ => "dict"
  end.

(** The line feed of the [\n] escapes in the script's literals. *)
Definition nl : string := String "010"%char EmptyString.

(** ** HTTP exchanges *)

Inductive Method := GET | POST | PUT | PATCH | DELETE.

Record Request := {
  method : Method;
  url : string;
  headers : list (string * string);
  body : option string
}.

(** The attributes of [requests.Response] the script reads. *)
Record Response := {
  status_code : Z;
  reason : string;
  text : string
}.

(** Objects bound to the script's global names. *)
Inductive value :=
| VJson (j : json)
| VResponse (r : Response).

(** The exceptions that end a run.  [Unmodelled] is none of Python's: a
    run ends with it where the script goes on with a value the model has
    no image of, and nothing is said of the script from there on. *)
Inductive exn :=
| ConnectionError
| JSONDecodeError
| KeyError (key : string)
| TypeError
| AttributeError
| NameError (name : string)
| Unmodelled.

(** A printed line: the literal text of an f-string and the values it
    formats, in order. *)
Inductive frag :=
| Lit (s : string)
| Fmt (v : json).

Inductive result (A : Type) :=
| Ok (a : A)
| Raise (e : exn).
Arguments Ok {A} a.
Arguments Raise {A} e.

(** ** What a run reports *)

Definition starts_with (p : string) (line : list frag) : bool :=
  match line with
  | Lit s :: _ => String.prefix p s
  | _ => false
  end.

(** A line announcing an unsuccessful exchange. *)
Definition is_failure_report : list frag -> bool :=
  starts_with "Unsuccessful".

(** A line announcing a successful exchange. *)
Definition is_success_report : list frag -> bool :=
  starts_with (nl +:+ " Successful").

Section Script.

(** The remote service: a state and the exchange the transport performs
    on it; no response is a transport failure. *)
Context {Backend : Type}.
Variable exchange : Request -> Backend -> option Response * Backend.

Record World := {
  globals : gmap string value;
  backend : Backend;
  sent : list Request;
  stdout : list (list frag)
}.

Definition M (A : Type) : Type := World -> result A * World.

Definition ret {A} (a : A) : M A := fun w => (Ok a, w).

Definition bind {A B} (m : M A) (k : A -> M B) : M B :=
  fun w =>
    match m w with
    | (Ok a, w') => k a w'
    | (Raise e, w') => (Raise e, w')
    end.

Definition raise {A} (e : exn) : M A := fun w => (Raise e, w).

Notation "x <- m ;; k" := (bind m (fun x => k))
  (at level 100, m at next level, right associativity).
Notation "m ;;; k" := (bind m (fun _ => k))
  (at level 100, right associativity).

(** [name = v] *)
Definition assign (name : string) (v : value) : M unit :=
  fun w =>
    (Ok tt, {| globals := <[name := v]> (globals w);
               backend := backend w;
               sent := sent w;
               stdout := stdout w |}).

(** Reading a global name. *)
Definition load (name : string) : M value :=
  fun w =>
    match globals w !! name with
    | Some v => (Ok v, w)
    | None => (Raise (NameError name), w)
    end.

Definition load_json (name : string) : M json :=
  v <- load name ;;
  match v with
  | VJson j => ret j
  | VResponse _ => raise TypeError
  end.

(** Reading a name whose attributes [status_code], [reason], [text] or
    method [json] are then used. *)
Definition load_response (name : string) : M Response :=
  v <- load name ;;
  match v with
  | VResponse r => ret r
  | VJson _ => raise AttributeError
  end.


Definition print (line : list frag) : M unit :=
  fun w =>
    (Ok tt, {| globals := globals w;
               backend := backend w;
               sent := sent w;
               stdout := stdout w ++ [line] |}).

(** [v[key]] with a string key. *)
Definition subscript (v : json) (key : string) : M json :=
  match v with
  | JObj d =>
      match Dict.get key d with
      | Some x => ret x
      | None => raise (KeyError key)
      end
  | _ => raise TypeError
  end.

(** [a + b] where [a] is a string. *)
Definition str_add (a : string) (b : json) : M string :=
  match b with
  | JStr s => ret (a +:+ s)
  | _ => raise TypeError
  end.

(** [json.loads(s)], and [response.json()] on the text of a response. *)
Definition loads (s : string) : M json :=
  match json_loads s with
  | Decoded v => ret v
  | Invalid => raise JSONDecodeError
  | Beyond => raise Unmodelled
  end.

(** One request through the transport. *)
Definition request (q : Request) : M Response :=
  fun w =>
    let (reply, b) := exchange q (backend w) in
    let w' := {| globals := globals w;
                 backend := b;
                 sent := sent w ++ [q];
                 stdout := stdout w |} in
    match reply with
    | Some r => (Ok r, w')
    | None => (Raise ConnectionError, w')
    end.

Definition url_of (v : json) : M string :=
  match v with
  | JStr s => ret s
  | _ => raise TypeError
  end.

(** The request of [requests.get(url)] and [requests.delete(url)]: no
    body, no header of the caller's. *)
Definition plain_request (m : Method) (u : string) : Request :=
  {| method := m; url := u; headers := []; body := None |}.

(** The request of [requests.post(url, json=data)], and likewise [put]
    and [patch]: the library serializes [data] and sets the content
    type, unless [data] is [None], which is as good as no [json]
    argument. *)
Definition json_request (m : Method) (u : string) (data : json)
  : Request :=
  match data with
  | JNull => {| method := m; url := u; headers := []; body := None |}
  | _ =>
      {| method := m; url := u;
         headers := [("Content-Type", "application/json")];
         body := Some (json_dumps data) |}
  end.

(** The request of [requests.post(url, data=text, headers=h)]: the text
    is the body as it is, the headers are the caller's, and an empty
    text is no body. *)
Definition data_request (m : Method) (u payload : string)
           (h : list (string * string)) : Request :=
  {| method := m; url := u; headers := h;
     body := match payload with
             | EmptyString => None
             | _ => Some payload
             end |}.

Definition requests_get (u : json) : M Response :=
  s <- url_of u ;;
  request (plain_request GET s).

Definition requests_delete (u : json) : M Response :=
  s <- url_of u ;;
  request (plain_request DELETE s).

Definition requests_post (u : json) (data : json) : M Response :=
  s <- url_of u ;;
  request (json_request POST s data).

Definition requests_put (u : json) (data : json) : M Response :=
  s <- url_of u ;;
  request (json_request PUT s data).

Definition requests_patch (u : json) (data : json) : M Response :=
  s <- url_of u ;;
  request (json_request PATCH s data).

Fixpoint header_list (d : list (string * json))
  : option (list (string * string)) :=
  match d with
  | [] => Some []
  | (k, JStr v) :: d' =>
      match header_list d' with
      | Some l => Some ((k, v) :: l)
      | None => None
      end
  | _ => None
  end.

(** [requests.post(url, data=text, headers=h)] *)
Definition requests_post_data (u : json) (data : json) (h : json)
  : M Response :=
  s <- url_of u ;;
  match data, h with
  | JStr payload, JObj d =>
      match header_list d with
      | Some l => request (data_request POST s payload l)
      | None => raise TypeError
      end
  | _, _ => raise TypeError
  end.

(** Statement [target = source[key]]. *)
Definition assign_item (target source key : string) : M unit :=
  d <- load_json source ;;
  v <- subscript d key ;;
  assign target (VJson v).

(** Statement [print(f"{label}{a == b}")] on two global names. *)
Definition print_eq (label a b : string) : M unit :=
  x <- load_json a ;;
  y <- load_json b ;;
  print [Lit label; Fmt (JBool (py_eq x y))].

(** The test of every section:
    [r.status_code == code and r.reason == phrase]. *)
Definition status_is (r : Response) (code : Z) (phrase : string) : bool :=
  Z.eqb (status_code r) code && String.eqb (reason r) phrase.

(** The two report lines, [what] being the text that names the exchange:
    [f"\n Successful {what}, status:  {r.status_code} reason: {r.reason}"]
    and
    [f"Unsuccessful {what} status: {r.status_code}  reason: {r.reason}"]. *)
Definition success_report (what : string) (r : Response) : list frag :=
  [Lit (nl +:+ " Successful " +:+ what +:+ ", status:  ");
   Fmt (JInt (status_code r));
   Lit " reason: ";
   Fmt (JStr (reason r))].

Definition failure_report (what : string) (r : Response) : list frag :=
  [Lit ("Unsuccessful " +:+ what +:+ " status: ");
   Fmt (JInt (status_code r));
   Lit "  reason: ";
   Fmt (JStr (reason r))].

(** ** The sections of the script

    Each section is a procedure of the literals it binds ([api_url],
    [todo], [headers]); [script] calls it with the literals of the
    source.  The two branches of its [if] are definitions of their
    own. *)

(** Lines 276-299. *)
Definition get_success : M unit :=
  response_get <- load_response "response_get" ;;
  v <- loads (text response_get) ;;
  assign "resp_py" (VJson v) ;;;
  response_get <- load_response "response_get" ;;
  print (success_report "GET /todos/1" response_get) ;;;
  assign_item "resp_userId" "resp_py" "userId" ;;;
  assign_item "resp_title" "resp_py" "title" ;;;
  assign_item "resp_completed" "resp_py" "completed" ;;;
  resp_userId <- load_json "resp_userId" ;;
  print [Lit (nl +:+ "resp_userId: "); Fmt resp_userId] ;;;
  resp_title <- load_json "resp_title" ;;
  print [Lit "resp_title: "; Fmt resp_title] ;;;
  resp_completed <- load_json "resp_completed" ;;
  print [Lit "resp_completed: "; Fmt resp_completed] ;;;
  response_get <- load_response "response_get" ;;
  j <- loads (text response_get) ;;
  v <- subscript j "userId" ;;
  assign "from_json_userId" (VJson v) ;;;
  response_get <- load_response "response_get" ;;
  j <- loads (text response_get) ;;
  v <- subscript j "title" ;;
  s <- str_add "** -- " v ;;
  assign "from_json_title" (VJson (JStr (s +:+ " -- **"))) ;;;
  response_get <- load_response "response_get" ;;
  j <- loads (text response_get) ;;
  v <- subscript j "completed" ;;
  assign "from_json_completed" (VJson v) ;;;
  from_json_userId <- load_json "from_json_userId" ;;
  from_json_title <- load_json "from_json_title" ;;
  from_json_completed <- load_json "from_json_completed" ;;
  print [Lit (nl +:+ " *** Data directly from response_get.json(): "
                 +:+ nl +:+ "userId: ");
         Fmt from_json_userId;
         Lit (" " +:+ nl +:+ "title: ");
         Fmt from_json_title;
         Lit (" " +:+ nl +:+ "completed? ");
         Fmt from_json_completed;
         Lit (" " +:+ nl)].

(** Lines 302-305. *)
Definition get_failure : M unit :=
  response_get <- load_response "response_get" ;;
  print (failure_report "GET /todos/1" response_get).

(** Lines 250-305: GET /todos/1. *)
Definition get_section (api_url : string) : M unit :=
  assign "api_url" (VJson (JStr api_url)) ;;;
  u <- load_json "api_url" ;;
  r <- requests_get u ;;
  assign "response_get" (VResponse r) ;;;
  response_get <- load_response "response_get" ;;
  if status_is response_get 200 "OK" then get_success else get_failure.

(** Lines 324-336: the body of the GET response decoded once more,
    whichever branch ran above. *)
Definition deserialize_section : M unit :=
  response_get <- load_response "response_get" ;;
  v <- loads (text response_get) ;;
  assign "resp_py" (VJson v) ;;;
  resp_py <- load_json "resp_py" ;;
  print [Lit ("<class '" +:+ py_type resp_py +:+ "'>")] ;;;
  resp_py <- load_json "resp_py" ;;
  print [Lit (nl +:+ nl +:+ "response_py in Python DataType --> ");
         Fmt resp_py] ;;;
  assign_item "user_id" "resp_py" "userId" ;;;
  assign_item "title" "resp_py" "title" ;;;
  assign_item "completed" "resp_py" "completed" ;;;
  title <- load_json "title" ;;
  user_id <- load_json "user_id" ;;
  completed <- load_json "completed" ;;
  print [Lit (nl +:+ "- Task '"); Fmt title;
         Lit "' executed by user "; Fmt user_id;
         Lit " is completed? "; Fmt completed].

(** The three comparisons printed after a POST and after a PUT. *)
Definition compare_fields : M unit :=
  assign_item "resp_userId" "resp_py" "userId" ;;;
  assign_item "resp_title" "resp_py" "title" ;;;
  assign_item "resp_completed" "resp_py" "completed" ;;;
  print_eq (nl +:+ "req_userId == resp_userId? ")
           "req_userId" "resp_userId" ;;;
  print_eq "req_title == resp_title? " "req_title" "resp_title" ;;;
  print_eq "req_completed == resp_completed? "
           "req_completed" "resp_completed".

(** Lines 368-381. *)
Definition post_success : M unit :=
  response_post <- load_response "response_post" ;;
  v <- loads (text response_post) ;;
  assign "resp_py" (VJson v) ;;;
  response_post <- load_response "response_post" ;;
  print (success_report "POST /todos" response_post) ;;;
  compare_fields.

(** Lines 383-386. *)
Definition post_failure : M unit :=
  response_post <- load_response "response_post" ;;
  print (failure_report "POST /todos" response_post).

(** Lines 356-386: POST /todos with [json=todo]. *)
Definition post_section (api_url : string) (todo : json) : M unit :=
  assign "api_url" (VJson (JStr api_url)) ;;;
  assign "todo" (VJson todo) ;;;
  assign_item "req_userId" "todo" "userId" ;;;
  assign_item "req_title" "todo" "title" ;;;
  assign_item "req_completed" "todo" "completed" ;;;
  u <- load_json "api_url" ;;
  data <- load_json "todo" ;;
  r <- requests_post u data ;;
  assign "response_post" (VResponse r) ;;;
  response_post <- load_response "response_post" ;;
  if status_is response_post 201 "Created"
  then post_success else post_failure.

(** Lines 402-411: the same POST with the body serialized by hand. *)
Definition post_data_section (api_url : string) (todo hdrs : json)
  : M unit :=
  assign "api_url" (VJson (JStr api_url)) ;;;
  assign "todo" (VJson todo) ;;;
  assign "headers" (VJson hdrs) ;;;
  u <- load_json "api_url" ;;
  data <- load_json "todo" ;;
  h <- load_json "headers" ;;
  r <- requests_post_data u (JStr (json_dumps data)) h ;;
  assign "response_post2" (VResponse r) ;;;
  response_post2 <- load_response "response_post2" ;;
  print [Fmt (JInt (status_code response_post2))].

(** Lines 475-488.  The report reads the global [response], bound by
    the GET at the top of the section. *)
Definition put_success : M unit :=
  response_put <- load_response "response_put" ;;
  v <- loads (text response_put) ;;
  assign "resp_py" (VJson v) ;;;
  response <- load_response "response" ;;
  print (success_report "PUT /todos" response) ;;;
  compare_fields.

(** Lines 490-493. *)
Definition put_failure : M unit :=
  response_put <- load_response "response_put" ;;
  print (failure_report "PUT /todos" response_put).

(** Lines 448-493: a GET for a picture of the item, then PUT /todos/10. *)
Definition put_section (api_url : string) (todo : json) : M unit :=
  assign "api_url" (VJson (JStr api_url)) ;;;
  u <- load_json "api_url" ;;
  r <- requests_get u ;;
  assign "response" (VResponse r) ;;;
  assign "todo" (VJson todo) ;;;
  assign_item "req_userId" "todo" "userId" ;;;
  assign_item "req_title" "todo" "title" ;;;
  assign_item "req_completed" "todo" "completed" ;;;
  u <- load_json "api_url" ;;
  data <- load_json "todo" ;;
  r <- requests_put u data ;;
  assign "response_put" (VResponse r) ;;;
  response_put <- load_response "response_put" ;;
  if status_is response_put 200 "OK" then put_success else put_failure.

(** Lines 518-527. *)
Definition patch_success : M unit :=
  response_patch <- load_response "response_patch" ;;
  v <- loads (text response_patch) ;;
  assign "resp_py" (VJson v) ;;;
  response_patch <- load_response "response_patch" ;;
  print (success_report "PATCH /todos/10" response_patch) ;;;
  assign_item "resp_title" "resp_py" "title" ;;;
  print_eq "req_title == resp_title? " "req_title" "resp_title".

(** Lines 529-532. *)
Definition patch_failure : M unit :=
  response_patch <- load_response "response_patch" ;;
  print (failure_report "PATCH /todos/10" response_patch).

(** Lines 510-532: PATCH /todos/10. *)
Definition patch_section (api_url : string) (todo : json) : M unit :=
  assign "api_url" (VJson (JStr api_url)) ;;;
  assign "todo" (VJson todo) ;;;
  assign_item "req_title" "todo" "title" ;;;
  u <- load_json "api_url" ;;
  data <- load_json "todo" ;;
  r <- requests_patch u data ;;
  assign "response_patch" (VResponse r) ;;;
  response_patch <- load_response "response_patch" ;;
  if status_is response_patch 200 "OK"
  then patch_success else patch_failure.

(** Lines 553-557.  The report reads the global [response], still bound
    by the GET of the PUT section. *)
Definition delete_success : M unit :=
  response <- load_response "response" ;;
  print (success_report "DELETE /todos/10" response).

(** Lines 559-562.  The report names PATCH, as in the source. *)
Definition delete_failure : M unit :=
  response_del <- load_response "response_del" ;;
  print (failure_report "PATCH /todos/10" response_del).

(** Lines 548-562: DELETE /todos/10. *)
Definition delete_section (api_url : string) : M unit :=
  assign "api_url" (VJson (JStr api_url)) ;;;
  u <- load_json "api_url" ;;
  r <- requests_delete u ;;
  assign "response_del" (VResponse r) ;;;
  response_del <- load_response "response_del" ;;
  if status_is response_del 200 "OK"
  then delete_success else delete_failure.

Definition todo_item (user_id : Z) (title : string) (completed : bool)
  : json :=
  JObj [("userId", JInt user_id); ("title", JStr title);
        ("completed", JBool completed)].

Definition todos : string := "https://jsonplaceholder.typicode.com/todos".
Definition todos_1 : string := todos +:+ "/1".
Definition todos_10 : string := todos +:+ "/10".

(** The module, top to bottom. *)
Definition script : M unit :=
  get_section todos_1 ;;;
  deserialize_section ;;;
  post_section todos (todo_item 1 "By honey" false) ;;;
  post_data_section todos (todo_item 1 "By beer" false)
                    (JObj [("Content-Type", JStr "application/json")]) ;;;
  put_section todos_10 (todo_item 1 "Dance at Hector party" true) ;;;
  patch_section todos_10 (JObj [("title", JStr "Happy Happy")]) ;;;
  delete_section todos_10.

(** What every [else] branch does: one line, nothing else. *)
Definition reported (what : string) (r : Response) (w : World)
  : result unit * World :=
  (Ok tt, {| globals := globals w;
             backend := backend w;
             sent := sent w;
             stdout := stdout w ++ [failure_report what r] |}).

(** A run that ends normally after printing the failure report and
    nothing else. *)
Definition unsuccessful (what : string) (r : Response) (w : World)
           (out : result unit * World) : Prop :=
  fst out = Ok tt /\
  stdout (snd out) = (stdout w ++ [failure_report what r])%list.

(** A run that prints no failure report. *)
Definition no_failure_report (w : World) (out : result unit * World)
  : Prop :=
  exists lines,
    stdout (snd out) = (stdout w ++ lines)%list /\
    existsb is_failure_report lines = false.

(** A run that prints no failure report and sends nothing. *)
Definition quiet (w : World) (out : result unit * World) : Prop :=
  exists lines,
    stdout (snd out) = (stdout w ++ lines)%list /\
    existsb is_failure_report lines = false /\
    sent (snd out) = sent w /\
    backend (snd out) = backend w.

(** A fresh interpreter in front of a service in state [b]. *)
Definition start (b : Backend) : World :=
  {| globals := ∅; backend := b; sent := []; stdout := [] |}.

End Script.

Arguments World : clear implicits.
Arguments M : clear implicits.
Arguments json_request : simpl never.
Arguments data_request : simpl never.

(** ** Simulated services *)

Definition reply (code : Z) (phrase body : string) : Response :=
  {| status_code := code; reason := phrase; text := body |}.

(** A service that holds one item and answers every request with it,
    unchanged. *)
Definition serving (item : json) (q : Request) (b : unit)
  : option Response * unit :=
  (Some (reply 200 "OK" (json_dumps item)), b).

(** A service that plays back a fixed list of replies, one per exchange,
    and then is unreachable. *)
Definition scripted (q : Request) (replies : list (option Response))
  : option Response * list (option Response) :=
  match replies with
  | [] => (None, [])
  | r :: rest => (r, rest)
  end.


(** A service that answers every request with the same response. *)
Definition answering (r : Response) (q : Request) (b : unit)
  : option Response * unit :=
  (Some r, b).

(** ** Summaries of a run

    What a piece of the script hands to the transport, and whether every
    name it reads is bound to an object of the kind it expects. *)

(** The exceptions of a name read before it is bound ([NameError]) or
    bound to an object without the attribute read ([AttributeError]). *)
Definition name_error (res : result unit) : bool :=
  match res with
  | Raise (NameError _) | Raise AttributeError => true
  | _ => false
  end.

(** The global [name] holds a response. *)
Definition bound_response (name : string) (g : gmap string value) : Prop :=
  exists r, g !! name = Some (VResponse r).

(** [runs reqs P Q m]: from every world whose globals satisfy [P], the
    run of [m] hands to the transport a prefix of [reqs], in that order,
    and all of [reqs] when it ends normally; it raises no [name_error];
    and when it ends normally the globals satisfy [Q]. *)
Definition runs {Backend : Type} (reqs : list Request)
           (P Q : gmap string value -> Prop) (m : M Backend unit) : Prop :=
  forall w,
    P (globals w) ->
    (exists l, sent (snd (m w)) = (sent w ++ l)%list /\
               l `prefix_of` reqs /\
               (fst (m w) = Ok tt -> l = reqs)) /\
    name_error (fst (m w)) = false /\
    (fst (m w) = Ok tt -> Q (globals (snd (m w)))).

(** The seven requests of the script, in the order of the source. *)
Definition script_requests : list Request :=
  [plain_request GET todos_1;
   json_request POST todos (todo_item 1 "By honey" false);
   json_request POST todos (todo_item 1 "By beer" false);
   plain_request GET todos_10;
   json_request PUT todos_10 (todo_item 1 "Dance at Hector party" true);
   json_request PATCH todos_10 (JObj [("title", JStr "Happy Happy")]);
   plain_request DELETE todos_10].

(** A world in which one global name holds a response. *)
Definition holding (name : string) (r : Response)
           (replies : list (option Response))
  : World (list (option Response)) :=
  {| globals := {[ name := VResponse r ]};
     backend := replies;
     sent := [];
     stdout := [] |}.

(** A world as the comparisons after a POST or a PUT find it: the
    decoded body and the three fields of the payload. *)
Definition compared (v x y z : json) : World unit :=
  {| globals := <["resp_py" := VJson v]>
                  (<["req_userId" := VJson x]>
                     (<["req_title" := VJson y]>
                        {[ "req_completed" := VJson z ]}));
     backend := tt;
     sent := [];
     stdout := [] |}.

(** ** Sample data

    Payloads of the source and replies a service may give. *)

Definition honey : list (string * json) :=
  [("userId", JInt 1); ("title", JStr "By honey"); ("completed", JBool false)].

Definition happy : list (string * json) := [("title", JStr "Happy Happy")].

Definition not_found : Response := reply 404 "Not Found" "{}".

(** A world in which [response] is already bound, as it is when the
    DELETE section runs. *)
Definition after_put (r0 : Response) (replies : list (option Response))
  : World (list (option Response)) :=
  {| globals := {[ "response" := VResponse r0 ]};
     backend := replies;
     sent := [];
     stdout := [] |}.

Definition wrong_reason : Response := reply 200 "Okay" "{}".

Definition unprocessable : Response :=
  reply 422 "Unprocessable Entity" "title: must not be blank".

Definition html : Response := reply 200 "OK" "<html>not json</html>".

(** The items the source shows for /todos/1 and /todos/10. *)
Definition item_1 : json :=
  JObj [("userId", JInt 1); ("id", JInt 1);
        ("title", JStr "delectus aut autem"); ("completed", JBool false)].

Definition item_10 : json :=
  JObj [("userId", JInt 1); ("id", JInt 10);
        ("title", JStr "illo est ratione doloremque quia maiores aut");
        ("completed", JBool true)].

(** The replies of the service as the comments of the source record
    them, in the order of the seven exchanges. *)
Definition recorded : list (option Response) :=
  [Some (reply 200 "OK" (json_dumps item_1));
   Some (reply 201 "Created"
           (json_dumps (JObj [("userId", JInt 1); ("title", JStr "By honey");
                              ("completed", JBool false);
                              ("id", JInt 201)])));
   Some (reply 201 "Created"
           (json_dumps (JObj [("userId", JInt 1); ("title", JStr "By beer");
                              ("completed", JBool false);
                              ("id", JInt 201)])));
   Some (reply 200 "OK" (json_dumps item_10));
   Some (reply 200 "OK"
           (json_dumps (JObj [("userId", JInt 1);
                              ("title", JStr "Dance at Hector party");
                              ("completed", JBool true);
                              ("id", JInt 10)])));
   Some (reply 200 "OK"
           (json_dumps (JObj [("userId", JInt 1); ("id", JInt 10);
                              ("title", JStr "Happy Happy");
                              ("completed", JBool true)])));
   Some (reply 200 "OK" "{}")].

Definition created : Response :=
  reply 201 "Created" (json_dumps (JObj (Dict.set "id" (JInt 201) honey))).

(** * Properties *)

(** ** The JSON codec *)

Module Codec.

Import Decode.
Local Open Scope char_scope.
Local Open Scope list_scope.

(** *** Strings *)

Lemma string_body_escape_char (c : ascii) (tail : list ascii) :
  string_body (Encode.escape_char c ++ tail)
  = cons_char c (string_body tail).
Proof.
  destruct c as [[] [] [] [] [] [] [] []]; reflexivity.
Qed.

Lemma string_body_escape (s : string) (rest : list ascii) :
  string_body (Encode.escape s ++ "034" :: rest) = Some (s, rest).
Proof.
  induction s as [|c s IH]; simpl; [reflexivity|].
  rewrite <- app_assoc, string_body_escape_char, IH. reflexivity.
Qed.

Lemma string_body_bounded (n : nat) :
  forall (s r : list ascii) (k : string),
    (length s <= n)%nat ->
    string_body s = Some (k, r) -> (length r < length s)%nat.
Proof.
  induction n as [|n IH]; intros s r k Hn H.
  - destruct s; [discriminate | simpl in Hn; lia].
  - destruct s as [|c s]; [discriminate|].
    assert (Hrec : forall t k0, (length t <= n)%nat ->
              cons_char k0 (string_body t) = Some (k, r) ->
              (length r < length t)%nat).
    { intros t k0 Hlen Hc. unfold cons_char in Hc.
      destruct (string_body t) as [[k' r']|] eqn:E; [|discriminate].
      injection Hc as _ <-. eapply IH; eauto. }
    simpl in Hn. simpl in H.
    repeat match type of H with
    | Some _ = Some _ => injection H as <- <-; simpl; lia
    | None = Some _ => discriminate
    | cons_char _ (string_body ?t) = Some _ =>
        apply Hrec in H; simpl in *; lia
    | context [match ?x with _ => _ end] => destruct x eqn:?
    | context [if ?x then _ else _] => destruct x eqn:?
    end.
Qed.

Lemma string_body_shorter (s r : list ascii) (k : string) :
  string_body s = Some (k, r) -> (length r < length s)%nat.
Proof. apply (string_body_bounded (length s)). lia. Qed.

(** *** Integers *)


Lemma digits_uint (u : Decimal.uint) (rest : list ascii) :
  no_digit_head rest -> digits (Encode.uint u ++ rest) = (u, rest).
Proof.
  intros Hrest.
  induction u; simpl; try (rewrite IHu; reflexivity).
  destruct rest as [|c rest]; [reflexivity|].
  simpl in Hrest. simpl. rewrite Hrest. reflexivity.
Qed.

Lemma to_uint_normal (p : positive) :
  Pos.to_uint p <> Nil /\ forall d, Pos.to_uint p <> D0 d.
Proof.
  split; [apply DecimalPos.Unsigned.to_uint_nonnil|].
  intros d Hd.
  assert (Hn : unorm (Pos.to_uint p) = Pos.to_uint p).
  { rewrite <- (DecimalPos.Unsigned.to_of (Pos.to_uint p)).
    rewrite DecimalPos.Unsigned.of_to. reflexivity. }
  rewrite Hd in Hn. unfold unorm in Hn.
  destruct (nzhead (D0 d)) eqn:E;
    try (rewrite Hn in E; exact (nzhead_nonzero _ _ E)).
  injection Hn as <-.
  apply (DecimalPos.Unsigned.to_uint_nonzero p). exact Hd.
Qed.

Lemma integer_positive (u : Decimal.uint) (rest : list ascii) :
  u <> Nil -> (forall d, u <> D0 d) -> no_digit_head rest ->
  integer (Encode.uint u ++ rest) = Some (Z.of_uint u, rest) /\
  integer ("-" :: Encode.uint u ++ rest) = Some (- Z.of_uint u, rest).
Proof.
  intros Hnil Hzero Hrest. unfold integer.
  pose proof (digits_uint u rest Hrest) as Hd.
  destruct u; try congruence; try (exfalso; eapply Hzero; reflexivity);
    simpl Encode.uint in *; simpl app in *; cbv iota; rewrite Hd;
    split; reflexivity.
Qed.

Lemma integer_int (z : Z) (rest : list ascii) :
  no_digit_head rest -> integer (Encode.int z ++ rest) = Some (z, rest).
Proof.
  intros Hrest. unfold Encode.int.
  destruct z as [|p|p]; simpl Z.to_int.
  - pose proof (digits_uint (D0 Nil) rest Hrest) as Hd.
    unfold integer. simpl Encode.uint in *. simpl app in *.
    cbv iota. rewrite Hd. reflexivity.
  - destruct (to_uint_normal p) as [Hnil Hzero].
    destruct (integer_positive _ rest Hnil Hzero Hrest) as [-> _].
    f_equal. f_equal.
    change (Z.of_int (Z.to_int (Z.pos p)) = Z.pos p).
    apply DecimalZ.of_to.
  - destruct (to_uint_normal p) as [Hnil Hzero].
    simpl app.
    destruct (integer_positive _ rest Hnil Hzero Hrest) as [_ ->].
    f_equal. f_equal.
    change (Z.of_int (Z.to_int (Z.neg p)) = Z.neg p).
    apply DecimalZ.of_to.
Qed.

Lemma digits_shorter (s : list ascii) :
  (length (snd (digits s)) <= length s)%nat /\
  (fst (digits s) <> Nil -> length (snd (digits s)) < length s)%nat.
Proof.
  induction s as [|c s IH]; simpl; [split; [lia | congruence]|].
  destruct (digit_of c) as [dc|]; simpl; [|split; [lia | congruence]].
  destruct (digits s) as [ds rs]; simpl in *. split; intros; lia.
Qed.

Lemma integer_shorter (s r : list ascii) (z : Z) :
  integer s = Some (z, r) -> (length r < length s)%nat.
Proof.
  unfold integer. intros H.
  assert (Hgen : forall s1, (length s1 <= length s)%nat ->
    match digits s1 with
    | (Nil, _) => None
    | (D0 Nil, r) => Some (0, r)
    | (D0 _, _) => None
    | (u, r) => Some (Z.of_uint u, r)
    end = Some (z, r) \/
    match digits s1 with
    | (Nil, _) => None
    | (D0 Nil, r) => Some (0, r)
    | (D0 _, _) => None
    | (u, r) => Some (- Z.of_uint u, r)
    end = Some (z, r) -> (length r < length s)%nat).
  { intros s1 Hlen Hm. pose proof (digits_shorter s1) as [_ Hs].
    destruct (digits s1) as [u r1]. simpl in Hs.
    assert (u <> Nil /\ r1 = r) as [Hu ->].
    { destruct Hm as [Hm|Hm]; destruct u as [|u'| | | | | | | | |];
        try destruct u'; try discriminate;
        injection Hm as _ <-; split; congruence. }
    specialize (Hs Hu). lia. }
  destruct s as [|c s']; [discriminate|].
  destruct (Ascii.eqb c "-") eqn:Ec.
  - apply Ascii.eqb_eq in Ec. subst c.
    apply (Hgen s'); [simpl; lia|]. right.
    destruct (digits s') as [[|u'| | | | | | | | |] r1];
      try destruct u'; try discriminate; exact H.
  - apply (Hgen (c :: s')); [lia|]. left.
    assert (Hs : match c :: s' with
                 | "-" :: r0 => (true, r0)
                 | _ => (false, c :: s')
                 end = (false, c :: s')).
    { destruct c as [[] [] [] [] [] [] [] []]; try reflexivity.
      discriminate Ec. }
    rewrite Hs in H.
    destruct (digits (c :: s')) as [[|u'| | | | | | | | |] r1];
      try destruct u'; try discriminate; exact H.
Qed.

(** *** Values: the scanner consumes input and never lacks fuel *)

Lemma skip_ws_le (s : list ascii) :
  (length (skip_ws s) <= length s)%nat.
Proof.
  induction s as [|c s IH]; simpl; [lia|].
  destruct (is_ws c); simpl; lia.
Qed.

Ltac scan_split H :=
  repeat match type of H with
  | Done _ _ = Done _ _ => injection H as <- <-
  | Bad = _ => discriminate H
  | Fuel = _ => discriminate H
  | context [match ?x with _ => _ end] => destruct x eqn:?
  end.

Ltac scan_lengths IHv IHe IHm :=
  repeat match goal with
  | H : skip_ws ?r = _ |- _ =>
      let L := fresh "L" in
      pose proof (skip_ws_le r) as L; rewrite H in L; clear H
  | H : string_body _ = Some _ |- _ => apply string_body_shorter in H
  | H : integer _ = Some _ |- _ => apply integer_shorter in H
  | H : value _ _ = Done _ _ |- _ => apply IHv in H
  | H : elems _ _ = Done _ _ |- _ => apply IHe in H
  | H : members _ _ = Done _ _ |- _ => apply IHm in H
  end;
  repeat match goal with
  | H : context [length (skip_ws ?r)] |- _ =>
      lazymatch goal with
      | _ : (length (skip_ws r) <= length r)%nat |- _ => fail
      | _ => pose proof (skip_ws_le r)
      end
  end;
  simpl length in *; lia.

Lemma scan_shorter (f : nat) :
  (forall s v r, value f s = Done v r -> (length r < length s)%nat) /\
  (forall s l r, elems f s = Done l r -> (length r < length s)%nat) /\
  (forall s l r, members f s = Done l r -> (length r < length s)%nat).
Proof.
  induction f as [|n (IHv & IHe & IHm)];
    [repeat split; intros; discriminate|].
  repeat split; intros s x r H; simpl in H;
    scan_split H; scan_lengths IHv IHe IHm.
Qed.

Ltac fuel_split H :=
  repeat match type of H with
  | Done _ _ = Fuel => discriminate H
  | Bad = Fuel => discriminate H
  | context [match ?x with _ => _ end] => destruct x eqn:?
  end.

Lemma scan_fuel (f : nat) :
  (forall s, (2 * length s < f)%nat -> value f s <> Fuel) /\
  (forall s, (2 * length s + 1 < f)%nat -> elems f s <> Fuel) /\
  (forall s, (2 * length s + 1 < f)%nat -> members f s <> Fuel).
Proof.
  induction f as [|n (IHv & IHe & IHm)];
    [repeat split; intros; lia|].
  destruct (scan_shorter n) as (Sv & Se & Sm).
  repeat split; intros s Hlen H; simpl in H; fuel_split H;
    match goal with
    | E : value _ _ = Fuel |- _ => revert E; apply IHv
    | E : elems _ _ = Fuel |- _ => revert E; apply IHe
    | E : members _ _ = Fuel |- _ => revert E; apply IHm
    end;
    try match goal with
    | |- context [length (skip_ws ?r)] => pose proof (skip_ws_le r)
    end;
    scan_lengths Sv Se Sm.
Qed.

(** The decoder always has fuel to spare. *)
Lemma document_fuel (s : list ascii) : document s <> Fuel.
Proof.
  unfold document. intros H.
  destruct (value (2 * length s + 2) (skip_ws s)) as [v r| |] eqn:E;
    try discriminate.
  - destruct (skip_ws r); discriminate.
  - revert E. apply scan_fuel. pose proof (skip_ws_le s). lia.
Qed.

(** *** The grammar in full: the same two facts *)

Lemma literal_body_bounded (n : nat) :
  forall (s r : list ascii),
    (length s <= n)%nat ->
    literal_body s = Some r -> (length r < length s)%nat.
Proof.
  induction n as [|n IH]; intros s r Hn H.
  - destruct s; [discriminate | simpl in Hn; lia].
  - destruct s as [|c s]; [discriminate|].
    simpl in Hn. simpl in H.
    repeat match type of H with
    | Some _ = Some _ => injection H as <-; simpl; lia
    | None = Some _ => discriminate
    | literal_body ?t = Some _ => apply IH in H; simpl in *; lia
    | context [match ?x with _ => _ end] => destruct x eqn:?
    | context [if ?x then _ else _] => destruct x eqn:?
    end.
Qed.

Lemma literal_body_shorter (s r : list ascii) :
  literal_body s = Some r -> (length r < length s)%nat.
Proof. apply (literal_body_bounded (length s)). lia. Qed.

Lemma after_length (p s r : list ascii) :
  after p s = Some r -> length s = (length p + length r)%nat.
Proof.
  revert s. induction p as [|c p IH]; intros s H; simpl in H.
  - injection H as <-. reflexivity.
  - destruct s as [|c' s]; [discriminate|].
    destruct (Ascii.eqb c c'); [|discriminate].
    simpl. rewrite (IH s H). reflexivity.
Qed.

Lemma constant_shorter (s r : list ascii) :
  constant s = Some r -> (length r < length s)%nat.
Proof.
  unfold constant. intros H.
  repeat match type of H with
  | context [match after ?p s with _ => _ end] =>
      let E := fresh "E" in
      destruct (after p s) eqn:E;
      [injection H as <-; apply after_length in E; simpl in E; lia|]
  end.
  apply after_length in H. simpl in H. lia.
Qed.

Lemma fraction_le (s : list ascii) :
  (length (fraction s) <= length s)%nat.
Proof.
  unfold fraction.
  destruct s as [|c [|c' s]];
    [ simpl; lia
    | destruct c as [[] [] [] [] [] [] [] []]; simpl; lia
    | ].
  pose proof (proj1 (digits_shorter s)) as Hs.
  destruct c as [[] [] [] [] [] [] [] []]; try (simpl; lia).
  destruct (digit_of c'); simpl; lia.
Qed.

Lemma exponent_le (s : list ascii) :
  (length (exponent s) <= length s)%nat.
Proof.
  unfold exponent.
  assert (Hd : forall r, (length r <= length s)%nat ->
            (length match digits r with
                    | (Nil, _) => s
                    | (_, r') => r'
                    end <= length s)%nat).
  { intros r Hr. pose proof (proj1 (digits_shorter r)) as Hs.
    destruct (digits r) as [u r']. simpl in Hs. destruct u; lia. }
  assert (Hsigned : forall r, (length r <= length s)%nat ->
            (length match r with
                    | "+" :: r' => match digits r' with
                                   | (Nil, _) => s
                                   | (_, r'') => r''
                                   end
                    | "-" :: r' => match digits r' with
                                   | (Nil, _) => s
                                   | (_, r'') => r''
                                   end
                    | _ => match digits r with
                           | (Nil, _) => s
                           | (_, r'') => r''
                           end
                    end <= length s)%nat).
  { intros r Hr. destruct r as [|c r]; [apply Hd; exact Hr|].
    simpl in Hr.
    destruct c as [[] [] [] [] [] [] [] []];
      first [ apply (Hd (_ :: r)); simpl; lia | apply Hd; lia ]. }
  destruct s as [|c s]; [simpl; lia|].
  destruct c as [[] [] [] [] [] [] [] []];
    first [ apply Hsigned; simpl; lia | simpl; lia ].
Qed.

Lemma number_shorter (s r : list ascii) :
  number s = Some r -> (length r < length s)%nat.
Proof.
  unfold number. intros H.
  assert (Hgen : forall s1, (length s1 <= length s)%nat ->
    match s1 with
    | "0" :: r0 => Some (exponent (fraction r0))
    | c :: r0 =>
        match digit_of c with
        | Some _ => Some (exponent (fraction (snd (digits r0))))
        | None => None
        end
    | [] => None
    end = Some r -> (length r < length s)%nat).
  { intros s1 Hlen Hm. destruct s1 as [|c s1]; [discriminate|].
    simpl in Hlen.
    assert (Hz : (length (exponent (fraction s1)) <= length s1)%nat).
    { pose proof (exponent_le (fraction s1)).
      pose proof (fraction_le s1). lia. }
    assert (Hd : (length (exponent (fraction (snd (digits s1))))
                  <= length s1)%nat).
    { pose proof (exponent_le (fraction (snd (digits s1)))).
      pose proof (fraction_le (snd (digits s1))).
      pose proof (proj1 (digits_shorter s1)). lia. }
    destruct c as [[] [] [] [] [] [] [] []]; simpl in Hm;
      try discriminate; injection Hm as <-; lia. }
  destruct s as [|c s']; [discriminate|].
  destruct (Ascii.eqb c "-") eqn:Ec.
  - apply Ascii.eqb_eq in Ec. subst c.
    apply (Hgen s'); [simpl; lia | exact H].
  - apply (Hgen (c :: s')); [lia|].
    destruct c as [[] [] [] [] [] [] [] []]; try exact H.
    discriminate Ec.
Qed.

Ltac grammar_lengths IHv IHe IHm :=
  repeat match goal with
  | H : skip_ws ?r = _ |- _ =>
      let L := fresh "L" in
      pose proof (skip_ws_le r) as L; rewrite H in L; clear H
  | H : literal_body _ = Some _ |- _ => apply literal_body_shorter in H
  | H : number _ = Some _ |- _ => apply number_shorter in H
  | H : constant _ = Some _ |- _ => apply constant_shorter in H
  | H : accepts _ _ = Done _ _ |- _ => apply IHv in H
  | H : accepts_elems _ _ = Done _ _ |- _ => apply IHe in H
  | H : accepts_members _ _ = Done _ _ |- _ => apply IHm in H
  end;
  repeat match goal with
  | H : context [length (skip_ws ?r)] |- _ =>
      lazymatch goal with
      | _ : (length (skip_ws r) <= length r)%nat |- _ => fail
      | _ => pose proof (skip_ws_le r)
      end
  end;
  simpl length in *; lia.

Ltac grammar_split H :=
  repeat match type of H with
  | Done _ _ = Done _ _ => injection H as <- <-
  | Bad = _ => discriminate H
  | Fuel = _ => discriminate H
  | context [match ?x with _ => _ end] => destruct x eqn:?
  end.

Lemma accepts_shorter (f : nat) :
  (forall s x r, accepts f s = Done x r -> (length r < length s)%nat) /\
  (forall s x r, accepts_elems f s = Done x r ->
                 (length r < length s)%nat) /\
  (forall s x r, accepts_members f s = Done x r ->
                 (length r < length s)%nat).
Proof.
  induction f as [|n (IHv & IHe & IHm)];
    [repeat split; intros; discriminate|].
  repeat split; intros s x r H; simpl in H;
    grammar_split H; grammar_lengths IHv IHe IHm.
Qed.

Lemma accepts_fuel (f : nat) :
  (forall s, (2 * length s < f)%nat -> accepts f s <> Fuel) /\
  (forall s, (2 * length s + 1 < f)%nat -> accepts_elems f s <> Fuel) /\
  (forall s, (2 * length s + 1 < f)%nat -> accepts_members f s <> Fuel).
Proof.
  induction f as [|n (IHv & IHe & IHm)];
    [repeat split; intros; lia|].
  destruct (accepts_shorter n) as (Sv & Se & Sm).
  repeat split; intros s Hlen H; simpl in H; fuel_split H;
    match goal with
    | E : accepts _ _ = Fuel |- _ => revert E; apply IHv
    | E : accepts_elems _ _ = Fuel |- _ => revert E; apply IHe
    | E : accepts_members _ _ = Fuel |- _ => revert E; apply IHm
    end;
    try match goal with
    | |- context [length (skip_ws ?r)] => pose proof (skip_ws_le r)
    end;
    grammar_lengths Sv Se Sm.
Qed.

(** The scan of the grammar has fuel to spare as well. *)
Lemma well_formed_fuel (s : list ascii) : well_formed s <> Fuel.
Proof.
  unfold well_formed. intros H.
  destruct (accepts (2 * length s + 2) (skip_ws s)) as [v r| |] eqn:E;
    try discriminate.
  - destruct (skip_ws r); discriminate.
  - revert E. apply accepts_fuel. pose proof (skip_ws_le s). lia.
Qed.

(** *** The two scans agree

    What [value] reads, [accepts] reads too, up to the same place. *)

Lemma unicode_escape_hex (a b c d ch : ascii) :
  unicode_escape a b c d = Some ch ->
  exists x y z w,
    hex_value a = Some x /\ hex_value b = Some y /\
    hex_value c = Some z /\ hex_value d = Some w.
Proof.
  unfold unicode_escape. intros H.
  destruct (hex_value a) as [x|]; [|discriminate].
  destruct (hex_value b) as [y|]; [|discriminate].
  destruct (hex_value c) as [z|]; [|discriminate].
  destruct (hex_value d) as [w|]; [|discriminate].
  exists x, y, z, w. repeat split; reflexivity.
Qed.

Lemma literal_of_string_bounded (n : nat) :
  forall (s r : list ascii) (k : string),
    (length s <= n)%nat ->
    string_body s = Some (k, r) -> literal_body s = Some r.
Proof.
  induction n as [|n IH]; intros s r k Hn H.
  - destruct s; [discriminate | simpl in Hn; lia].
  - destruct s as [|c s]; [discriminate|].
    assert (Hrec : forall t k0, (length t <= n)%nat ->
              cons_char k0 (string_body t) = Some (k, r) ->
              literal_body t = Some r).
    { intros t k0 Hlen Hc. unfold cons_char in Hc.
      destruct (string_body t) as [[k' r']|] eqn:E; [|discriminate].
      injection Hc as _ <-. eapply IH; eauto. }
    simpl in Hn. unfold string_body in H; fold string_body in H.
    cbn [literal_body].
    repeat match type of H with
    | Some _ = Some _ => injection H as <- <-; reflexivity
    | None = Some _ => discriminate
    | cons_char _ (string_body ?t) = Some _ =>
        apply Hrec in H; [| simpl in *; lia];
        try match goal with
        | E : unicode_escape _ _ _ _ = Some _ |- _ =>
            destruct (unicode_escape_hex _ _ _ _ _ E)
              as (? & ? & ? & ? & Ea & Eb & Ec & Ed);
            rewrite Ea, Eb, Ec, Ed
        end;
        exact H
    | context [match ?x with _ => _ end] => destruct x eqn:?
    | context [if ?x then _ else _] => destruct x eqn:?
    end.
Qed.

Lemma literal_of_string (s r : list ascii) (k : string) :
  string_body s = Some (k, r) -> literal_body s = Some r.
Proof. apply (literal_of_string_bounded (length s)). lia. Qed.

Lemma digits_nil (s : list ascii) :
  fst (digits s) = Nil -> snd (digits s) = s.
Proof.
  destruct s as [|c s]; simpl; [reflexivity|].
  destruct (digit_of c) eqn:E; simpl; [|reflexivity].
  destruct (digits s). simpl.
  destruct c as [[] [] [] [] [] [] [] []]; try discriminate E;
    injection E as <-; discriminate.
Qed.

(** An integer is a number of the grammar that stops at the same place
    unless a fraction or an exponent follows. *)
Lemma number_of_integer (s r : list ascii) (z : Z) :
  integer s = Some (z, r) ->
  constant s = None /\ number s = Some (exponent (fraction r)).
Proof.
  unfold integer, number. intros H.
  assert (Hgen : forall s1 (neg : bool),
    match digits s1 with
    | (Nil, _) => None
    | (D0 Nil, r) => Some (0, r)
    | (D0 _, _) => None
    | (u, r) => Some (if neg then - Z.of_uint u else Z.of_uint u, r)
    end = Some (z, r) ->
    (exists c t, s1 = c :: t /\ digit_of c <> None) /\
    match s1 with
    | "0" :: r0 => Some (exponent (fraction r0))
    | c :: r0 =>
        match digit_of c with
        | Some _ => Some (exponent (fraction (snd (digits r0))))
        | None => None
        end
    | [] => None
    end = Some (exponent (fraction r))).
  { intros s1 neg Hm. destruct s1 as [|c s1]; [discriminate|].
    simpl in Hm. destruct (digit_of c) as [dc|] eqn:Ec; [|discriminate].
    split; [exists c, s1; split; [reflexivity | congruence]|].
    pose proof (digits_nil s1) as Hnil.
    destruct (digits s1) as [u r1]. simpl in Hnil.
    destruct c as [[] [] [] [] [] [] [] []]; try discriminate Ec;
      injection Ec as <-; simpl;
      try (destruct u; try discriminate Hm;
           rewrite <- (Hnil eq_refl); injection Hm as _ <-; reflexivity);
      injection Hm as _ <-; reflexivity. }
  destruct s as [|c s']; [discriminate|].
  destruct (Ascii.eqb c "-") eqn:Ec.
  - apply Ascii.eqb_eq in Ec. subst c.
    destruct (Hgen s' true H) as [(c & t & -> & Hc) Hn].
    split; [|exact Hn].
    unfold constant. simpl.
    destruct c as [[] [] [] [] [] [] [] []]; try reflexivity;
      exfalso; apply Hc; reflexivity.
  - assert (Hs : match c :: s' with
                 | "-" :: r0 => (true, r0)
                 | _ => (false, c :: s')
                 end = (false, c :: s')).
    { destruct c as [[] [] [] [] [] [] [] []]; try reflexivity.
      discriminate Ec. }
    rewrite Hs in H.
    destruct (Hgen (c :: s') false H) as [(c0 & t & Heq & Hc) Hn].
    injection Heq as <- <-.
    assert (Hs' : match c :: s' with
                  | "-" :: r0 => r0
                  | _ => c :: s'
                  end = c :: s').
    { destruct c as [[] [] [] [] [] [] [] []]; try reflexivity.
      discriminate Ec. }
    rewrite Hs'. split; [|exact Hn].
    unfold constant. simpl.
    destruct c as [[] [] [] [] [] [] [] []]; try reflexivity;
      exfalso; apply Hc; reflexivity.
Qed.

(** White space, a closing bracket or brace, or a comma, starts neither
    a fraction nor an exponent. *)
Lemma follows_closing (r : list ascii) (c : ascii) (r' : list ascii) :
  skip_ws r = c :: r' ->
  c = "]" \/ c = "," \/ c = "}" ->
  exponent (fraction r) = r.
Proof.
  intros H Hc. destruct r as [|c0 r0]; [discriminate|].
  simpl in H. destruct (is_ws c0) eqn:W.
  - destruct c0 as [[] [] [] [] [] [] [] []]; try discriminate W;
      reflexivity.
  - injection H as -> _.
    destruct Hc as [-> | [-> | ->]]; reflexivity.
Qed.

Lemma follows_end (r : list ascii) :
  skip_ws r = [] -> exponent (fraction r) = r.
Proof.
  intros H. destruct r as [|c0 r0]; [reflexivity|].
  simpl in H. destruct (is_ws c0) eqn:W; [|discriminate].
  destruct c0 as [[] [] [] [] [] [] [] []]; try discriminate W;
    reflexivity.
Qed.

Section Agreement.

Local Arguments constant : simpl never.
Local Arguments number : simpl never.
Local Arguments integer : simpl never.
Local Arguments literal_body : simpl never.
Local Arguments string_body : simpl never.
Local Arguments skip_ws : simpl never.

Ltac agree IHv IHe IHm :=
  repeat (match goal with
          | E : string_body ?t = Some _ |- context [literal_body ?t] =>
              rewrite (literal_of_string _ _ _ E)
          | E : integer ?t = Some _ |- context [constant ?t] =>
              destruct (number_of_integer _ _ _ E) as [-> ->]
          | W : skip_ws ?r = _ |- context [skip_ws ?r] => rewrite W
          | E : elems ?n ?t = Done _ _ |- context [accepts_elems ?n ?t] =>
              rewrite (IHe _ _ _ E)
          | E : members ?n ?t = Done _ _
            |- context [accepts_members ?n ?t] =>
              rewrite (IHm _ _ _ E)
          | E : value ?n ?t = Done _ ?r, W : skip_ws ?r = _ :: _
            |- context [accepts ?n ?t] =>
              let Hf := fresh "Hf" in
              assert (Hf : exponent (fraction r) = r)
                by (eapply follows_closing; [exact W | auto]);
              rewrite (IHv _ _ _ E Hf)
          end; cbv beta iota).

Lemma accepts_decoded (f : nat) :
  (forall s v r, value f s = Done v r -> exponent (fraction r) = r ->
                 accepts f s = Done tt r) /\
  (forall s l r, elems f s = Done l r -> accepts_elems f s = Done tt r) /\
  (forall s l r, members f s = Done l r ->
                 accepts_members f s = Done tt r).
Proof.
  induction f as [|n (IHv & IHe & IHm)];
    [repeat split; intros; discriminate|].
  split; [|split].
  - intros s v r H Hf. simpl in H |- *.
    scan_split H; agree IHv IHe IHm;
      first [reflexivity | rewrite Hf; reflexivity].
  - intros s l r H. simpl in H |- *.
    scan_split H; agree IHv IHe IHm; reflexivity.
  - intros s l r H. simpl in H |- *.
    scan_split H; agree IHv IHe IHm; reflexivity.
Qed.

End Agreement.

(** A text that decodes is a document of the grammar. *)
Lemma well_formed_decoded (s : list ascii) v r :
  document s = Done v r -> well_formed s = Done tt [].
Proof.
  unfold document, well_formed. intros H.
  destruct (value (2 * length s + 2) (skip_ws s)) as [v0 r0| |] eqn:E;
    try discriminate.
  destruct (skip_ws r0) eqn:W; [|discriminate].
  destruct (accepts_decoded (2 * length s + 2)) as (Hv & _ & _).
  rewrite (Hv _ _ _ E (follows_end _ W)), W. reflexivity.
Qed.

(** *** Values: decoding what the encoder wrote *)



Lemma int_head_value_head (c : ascii) :
  int_head c = true -> value_head c = true.
Proof.
  destruct c as [[] [] [] [] [] [] [] []]; simpl; congruence.
Qed.

Lemma encode_int_head (z : Z) :
  exists c t, Encode.int z = c :: t /\ int_head c = true.
Proof.
  unfold Encode.int. destruct z as [|p|p]; simpl Z.to_int.
  - repeat eexists.
  - destruct (to_uint_normal p) as [Hnil Hzero].
    destruct (Pos.to_uint p); try congruence;
      try (exfalso; eapply Hzero; reflexivity); repeat eexists.
  - repeat eexists.
Qed.

Lemma encode_value_head (v : json) :
  exists c t, Encode.value v = c :: t /\ value_head c = true.
Proof.
  destruct v as [|[]|z|s|l|m]; try (repeat eexists; fail).
  destruct (encode_int_head z) as (c & t & E & H).
  exists c, t. split; [exact E | apply int_head_value_head, H].
Qed.

Lemma skip_ws_head (c : ascii) (t : list ascii) :
  value_head c = true -> skip_ws (c :: t) = c :: t.
Proof.
  destruct c as [[] [] [] [] [] [] [] []]; simpl; congruence.
Qed.

Lemma skip_ws_encoded (v : json) (rest : list ascii) :
  skip_ws (Encode.value v ++ rest) = Encode.value v ++ rest.
Proof.
  destruct (encode_value_head v) as (c & t & -> & H).
  apply skip_ws_head, H.
Qed.

Lemma value_int_step (n : nat) (c : ascii) (t : list ascii) :
  int_head c = true ->
  value (S n) (c :: t) = match integer (c :: t) with
                         | Some (z, r) => Done (JInt z) r
                         | None => Bad
                         end.
Proof.
  destruct c as [[] [] [] [] [] [] [] []]; simpl int_head;
    try discriminate; reflexivity.
Qed.

Lemma value_array_step (n : nat) (c : ascii) (t : list ascii) :
  value_head c = true ->
  value (S n) ("[" :: c :: t) = match elems n (c :: t) with
                                | Done l r => Done (JArr l) r
                                | Bad => Bad
                                | Fuel => Fuel
                                end.
Proof.
  destruct c as [[] [] [] [] [] [] [] []]; simpl value_head;
    try discriminate; reflexivity.
Qed.

Lemma elems_step (n : nat) (s : list ascii) :
  elems (S n) s =
  match value n s with
  | Done v r =>
      match skip_ws r with
      | "]" :: r' => Done [v] r'
      | "," :: r' =>
          match elems n (skip_ws r') with
          | Done l r'' => Done (v :: l) r''
          | Bad => Bad
          | Fuel => Fuel
          end
      | _ => Bad
      end
  | Bad => Bad
  | Fuel => Fuel
  end.
Proof. reflexivity. Qed.

Lemma members_step (n : nat) (s : list ascii) :
  members (S n) s =
  match string_body s with
  | None => Bad
  | Some (k, r) =>
      match skip_ws r with
      | ":" :: r1 =>
          match value n (skip_ws r1) with
          | Done v r2 =>
              match skip_ws r2 with
              | "}" :: r3 => Done [(k, v)] r3
              | "," :: r3 =>
                  match skip_ws r3 with
                  | "034" :: r4 =>
                      match members n r4 with
                      | Done l r5 => Done ((k, v) :: l) r5
                      | Bad => Bad
                      | Fuel => Fuel
                      end
                  | _ => Bad
                  end
              | _ => Bad
              end
          | Bad => Bad
          | Fuel => Fuel
          end
      | _ => Bad
      end
  end.
Proof. reflexivity. Qed.

Lemma encode_elems_cons (x : json) (l : list json) :
  Encode.elems (x :: l) =
  Encode.value x ++ match l with
                    | [] => []
                    | _ => "," :: " " :: Encode.elems l
                    end.
Proof. destruct l; simpl; [rewrite app_nil_r|]; reflexivity. Qed.

Lemma encode_membs_cons (k : string) (v : json)
      (l : list (string * json)) :
  Encode.membs ((k, v) :: l) =
  "034" :: Encode.escape k ++ "034" :: ":" :: " " :: Encode.value v
    ++ match l with
       | [] => []
       | _ => "," :: " " :: Encode.membs l
       end.
Proof.
  destruct l; simpl; unfold Encode.str; simpl;
    rewrite <- ?app_assoc; simpl; rewrite ?app_nil_r; reflexivity.
Qed.

Lemma dict_set_fresh {A} (k : string) (v : A) (d : list (string * A)) :
  k ∉ map fst d -> Dict.set k v d = d ++ [(k, v)].
Proof.
  induction d as [|[k' v'] d IH]; simpl; intros Hk; [reflexivity|].
  apply not_elem_of_cons in Hk as [Hne Hk].
  destruct (String.eqb_spec k k') as [->|_]; [congruence|].
  rewrite IH by exact Hk. reflexivity.
Qed.

Lemma dict_fold_set {A} (l acc : list (string * A)) :
  NoDup (map fst (acc ++ l)) ->
  fold_left (fun d kv => Dict.set (fst kv) (snd kv) d) l acc = acc ++ l.
Proof.
  revert acc. induction l as [|[k v] l IH]; intros acc Hnd; simpl.
  - rewrite app_nil_r. reflexivity.
  - rewrite dict_set_fresh.
    + rewrite IH; rewrite <- app_assoc; [reflexivity | exact Hnd].
    + rewrite map_app in Hnd. apply NoDup_app in Hnd as (_ & Hd & _).
      intros Hin. apply (Hd k Hin). simpl. left.
Qed.

Lemma dict_of_pairs_nodup {A} (l : list (string * A)) :
  NoDup (map fst l) -> Dict.of_pairs l = l.
Proof. intros H. unfold Dict.of_pairs. rewrite dict_fold_set; auto. Qed.

Local Arguments Encode.value : simpl never.
Local Arguments Encode.elems : simpl never.
Local Arguments Encode.membs : simpl never.
Local Arguments Encode.escape : simpl never.
Local Arguments value : simpl never.
Local Arguments elems : simpl never.
Local Arguments members : simpl never.
Local Arguments string_body : simpl never.

Lemma decode_encoded (f : nat) :
  (forall v rest,
      wf_json v -> no_digit_head rest ->
      (2 * length (Encode.value v ++ rest) < f)%nat ->
      value f (Encode.value v ++ rest) = Done v rest) /\
  (forall x l rest,
      wf_items (x :: l) ->
      (2 * length (Encode.elems (x :: l) ++ "]" :: rest) + 1 < f)%nat ->
      elems f (Encode.elems (x :: l) ++ "]" :: rest)
      = Done (x :: l) rest) /\
  (forall kv l rest s,
      wf_members (kv :: l) ->
      Encode.membs (kv :: l) ++ "}" :: rest = "034" :: s ->
      (2 * length s + 1 < f)%nat ->
      members f s = Done (kv :: l) rest).
Proof.
  induction f as [|n (IHv & IHe & IHm)];
    [repeat split; intros; lia|].
  repeat split.
  - (* a value *)
    intros v rest Hwf Hrest Hlen.
    destruct v as [|[]|z|s|l|m]; try reflexivity.
    + (* integer *)
      change (Encode.value (JInt z)) with (Encode.int z).
      destruct (encode_int_head z) as (c & t & E & Hc).
      pose proof (integer_int z rest Hrest) as Hz.
      rewrite E in *. simpl app in *.
      rewrite value_int_step, Hz by exact Hc. reflexivity.
    + (* string *)
      change (Encode.value (JStr s))
        with ("034" :: Encode.escape s ++ ["034"]).
      simpl app. rewrite <- app_assoc. simpl app.
      change (value (S n) ("034" :: ?r))
        with (match string_body r with
              | Some (str, r') => Done (JStr str) r'
              | None => Bad
              end).
      rewrite string_body_escape. reflexivity.
    + (* array *)
      destruct l as [|x l]; [reflexivity|].
      change (Encode.value (JArr (x :: l)))
        with ("[" :: Encode.elems (x :: l) ++ ["]"]) in *.
      simpl app in *. rewrite <- app_assoc in *. simpl app in *.
      assert (He : elems n (Encode.elems (x :: l) ++ "]" :: rest)
                   = Done (x :: l) rest).
      { apply IHe; [exact Hwf | simpl length in Hlen; lia]. }
      revert He. rewrite encode_elems_cons, <- app_assoc.
      destruct (encode_value_head x) as (c & t & -> & Hc). simpl app.
      intros He. rewrite value_array_step, He by exact Hc. reflexivity.
    + (* object *)
      destruct m as [|[k v] m]; [reflexivity|].
      change (Encode.value (JObj ((k, v) :: m)))
        with ("{" :: Encode.membs ((k, v) :: m) ++ ["}"]) in *.
      simpl app in *. rewrite <- app_assoc in *. simpl app in *.
      destruct Hwf as [Hnd Hwf].
      assert (Hm : exists s,
                 Encode.membs ((k, v) :: m) ++ "}" :: rest = "034" :: s).
      { rewrite encode_membs_cons. simpl app. eexists. reflexivity. }
      destruct Hm as [s Hs]. rewrite Hs in *.
      change (value (S n) ("{" :: "034" :: s))
        with (match members n s with
              | Done l r'' => Done (JObj (Dict.of_pairs l)) r''
              | Bad => Bad
              | Fuel => Fuel
              end).
      rewrite (IHm (k, v) m rest s Hwf Hs) by (simpl length in Hlen; lia).
      rewrite dict_of_pairs_nodup by exact Hnd. reflexivity.
  - (* the items of an array *)
    intros x l rest [Hx Hl] Hlen.
    rewrite elems_step.
    rewrite encode_elems_cons, <- app_assoc in *.
    destruct l as [|y l].
    + simpl app in *. rewrite IHv; [reflexivity | exact Hx | reflexivity | lia].
    + simpl app in *.
      rewrite IHv; [| exact Hx | reflexivity | lia].
      change (skip_ws ("," :: " " :: ?r)) with ("," :: " " :: r).
      cbv iota.
      change (skip_ws (" " :: ?r)) with (skip_ws r).
      assert (Hs : skip_ws (Encode.elems (y :: l) ++ "]" :: rest)
                   = Encode.elems (y :: l) ++ "]" :: rest).
      { rewrite encode_elems_cons, <- app_assoc.
        apply skip_ws_encoded. }
      rewrite Hs, IHe; [reflexivity | exact Hl |].
      rewrite length_app in Hlen. simpl length in Hlen. lia.
  - (* the members of an object *)
    intros [k v] l rest s [Hv Hl] Hs Hlen.
    rewrite members_step.
    rewrite encode_membs_cons in Hs. simpl app in Hs.
    injection Hs as <-.
    rewrite <- app_assoc in *. simpl app in *.
    rewrite string_body_escape.
    change (skip_ws (":" :: " " :: ?r)) with (":" :: " " :: r).
    cbv iota.
    change (skip_ws (" " :: ?r)) with (skip_ws r).
    rewrite <- app_assoc in *.
    rewrite skip_ws_encoded.
    rewrite length_app in Hlen. simpl length in Hlen.
    destruct l as [|[k' v'] l].
    + simpl app in *.
      rewrite IHv; [reflexivity | exact Hv | reflexivity | lia].
    + simpl app in *.
      rewrite IHv; [| exact Hv | reflexivity | lia].
      change (skip_ws ("," :: " " :: ?r)) with ("," :: " " :: r).
      cbv iota.
      change (skip_ws (" " :: ?r)) with (skip_ws r).
      assert (Hm : exists s',
                 Encode.membs ((k', v') :: l) ++ "}" :: rest
                 = "034" :: s').
      { rewrite encode_membs_cons. simpl app. eexists. reflexivity. }
      destruct Hm as [s' Hs']. rewrite Hs' in *.
      change (skip_ws ("034" :: s')) with ("034" :: s').
      cbv iota.
      rewrite (IHm (k', v') l rest s' Hl Hs'); [reflexivity|].
      rewrite length_app in Hlen. simpl length in Hlen. lia.
Qed.

(** [Invalid] is a text that is no document of the grammar, [Beyond]
    one that is and that [value] does not read; fuel plays no part in
    either. *)
Lemma loads_invalid (s : string) :
  json_loads s = Invalid <-> well_formed (list_ascii_of_string s) = Bad.
Proof.
  unfold json_loads.
  pose proof (document_fuel (list_ascii_of_string s)) as Hfuel.
  pose proof (well_formed_fuel (list_ascii_of_string s)) as Hfuel'.
  destruct (document (list_ascii_of_string s)) as [v r| |] eqn:D.
  - rewrite (well_formed_decoded _ _ _ D). split; discriminate.
  - destruct (well_formed (list_ascii_of_string s));
      split; congruence.
  - congruence.
Qed.

Lemma loads_decoded (s : string) (v : json) :
  json_loads s = Decoded v ->
  well_formed (list_ascii_of_string s) = Done tt [].
Proof.
  unfold json_loads. intros H.
  destruct (document (list_ascii_of_string s)) as [v0 r| |] eqn:D.
  - exact (well_formed_decoded _ _ _ D).
  - destruct (well_formed (list_ascii_of_string s)); discriminate.
  - destruct (well_formed (list_ascii_of_string s)); discriminate.
Qed.

Lemma loads_beyond (s : string) :
  json_loads s = Beyond <->
  document (list_ascii_of_string s) = Bad /\
  well_formed (list_ascii_of_string s) = Done tt [].
Proof.
  unfold json_loads, well_formed.
  pose proof (document_fuel (list_ascii_of_string s)) as Hfuel.
  pose proof (well_formed_fuel (list_ascii_of_string s)) as Hfuel'.
  unfold well_formed in Hfuel'.
  destruct (document (list_ascii_of_string s));
    destruct (accepts _ _) as [[] r| |];
    try destruct (skip_ws r);
    split; try intros [? ?]; try split; congruence.
Qed.

(** A serialized value is never the empty text. *)
Lemma dumps_not_empty (v : json) : json_dumps v <> EmptyString.
Proof.
  unfold json_dumps.
  destruct (encode_value_head v) as (c & t & -> & _). discriminate.
Qed.

(** [json.loads(json.dumps(v)) == v] for every well-formed value. *)
Lemma loads_dumps (v : json) :
  wf_json v -> json_loads (json_dumps v) = Decoded v.
Proof.
  intros Hwf. unfold json_loads, json_dumps, document.
  rewrite list_ascii_of_string_of_list_ascii.
  rewrite <- (app_nil_r (Encode.value v)), skip_ws_encoded.
  destruct (decode_encoded (2 * length (Encode.value v ++ []) + 2))
    as (Hv & _ & _).
  rewrite Hv; [reflexivity | exact Hwf | exact I | lia].
Qed.

End Codec.

(** ** Dictionaries and equality of values *)

Module Values.

Local Open Scope string_scope.












End Values.

(** ** Running the sections *)

Ltac map_simpl :=
  repeat (rewrite lookup_insert;
          match goal with
          | |- context [decide (?a = ?b)] =>
              destruct (decide (a = b)) as [?|?];
              [try discriminate | try congruence]
          end).

Ltac exec :=
  cbv beta iota zeta delta
    [bind ret raise assign load load_json load_response print subscript
     str_add loads request url_of requests_get requests_delete
     requests_post requests_put requests_patch requests_post_data
     header_list assign_item print_eq globals backend sent stdout];
  map_simpl.

(** Case analysis on the next test the run is waiting for. *)
Ltac next_case :=
  match goal with
  | H : ?x = _ |- context [match ?x with _ => _ end] => rewrite H
  | |- context [match ?x with _ => _ end] =>
      lazymatch x with
      | context [match _ with _ => _ end] => fail
      | _ => destruct x eqn:?
      end
  end.

Ltac explore := exec; repeat (next_case; exec).

Section Runs.

Context {Backend : Type}.
Variable exchange : Request -> Backend -> option Response * Backend.
Local Open Scope string_scope.

#[local] Abbreviation World := (World Backend).

Lemma status_is_true (r : Response) (code : Z) (phrase : string) :
  status_is r code phrase = true <->
  status_code r = code /\ reason r = phrase.
Proof.
  unfold status_is. rewrite andb_true_iff, Z.eqb_eq, String.eqb_eq.
  reflexivity.
Qed.

Lemma status_is_false (r : Response) (code : Z) (phrase : string) :
  status_is r code phrase = false <->
  status_code r <> code \/ reason r <> phrase.
Proof.
  unfold status_is. rewrite andb_false_iff, Z.eqb_neq, String.eqb_neq.
  reflexivity.
Qed.

(** *** Up to the test of each section *)

Lemma get_section_answered (u : string) (w : World) r b' :
  exchange (plain_request GET u) (backend w) = (Some r, b') ->
  get_section exchange u w =
  (if status_is r 200 "OK" then get_success else get_failure)
    {| globals := <["response_get" := VResponse r]>
                    (<["api_url" := VJson (JStr u)]> (globals w));
       backend := b';
       sent := sent w ++ [plain_request GET u];
       stdout := stdout w |}.
Proof.
  intros E. destruct w as [g b s o]. cbn in E.
  unfold get_section. exec. rewrite E. exec. reflexivity.
Qed.

Lemma post_section_answered (u : string) d x y z (w : World) r b' :
  Dict.get "userId" d = Some x ->
  Dict.get "title" d = Some y ->
  Dict.get "completed" d = Some z ->
  exchange (json_request POST u (JObj d)) (backend w) = (Some r, b') ->
  post_section exchange u (JObj d) w =
  (if status_is r 201 "Created" then post_success else post_failure)
    {| globals :=
         <["response_post" := VResponse r]>
           (<["req_completed" := VJson z]>
              (<["req_title" := VJson y]>
                 (<["req_userId" := VJson x]>
                    (<["todo" := VJson (JObj d)]>
                       (<["api_url" := VJson (JStr u)]> (globals w))))));
       backend := b';
       sent := sent w ++ [json_request POST u (JObj d)];
       stdout := stdout w |}.
Proof.
  intros Hx Hy Hz E. destruct w as [g b s o]. cbn in E.
  unfold post_section. exec. rewrite Hx. exec. rewrite Hy. exec.
  rewrite Hz. exec. rewrite E. exec. reflexivity.
Qed.

Lemma put_section_answered (u : string) d x y z (w : World)
      r0 b0 r b' :
  Dict.get "userId" d = Some x ->
  Dict.get "title" d = Some y ->
  Dict.get "completed" d = Some z ->
  exchange (plain_request GET u) (backend w) = (Some r0, b0) ->
  exchange (json_request PUT u (JObj d)) b0 = (Some r, b') ->
  put_section exchange u (JObj d) w =
  (if status_is r 200 "OK" then put_success else put_failure)
    {| globals :=
         <["response_put" := VResponse r]>
           (<["req_completed" := VJson z]>
              (<["req_title" := VJson y]>
                 (<["req_userId" := VJson x]>
                    (<["todo" := VJson (JObj d)]>
                       (<["response" := VResponse r0]>
                          (<["api_url" := VJson (JStr u)]>
                             (globals w)))))));
       backend := b';
       sent := sent w ++ [plain_request GET u;
                          json_request PUT u (JObj d)];
       stdout := stdout w |}.
Proof.
  intros Hx Hy Hz E0 E. destruct w as [g b s o]. cbn in E0.
  unfold put_section. exec. rewrite E0. exec. rewrite Hx. exec.
  rewrite Hy. exec. rewrite Hz. exec. rewrite E. exec.
  rewrite <- app_assoc. reflexivity.
Qed.

Lemma patch_section_answered (u : string) d y (w : World) r b' :
  Dict.get "title" d = Some y ->
  exchange (json_request PATCH u (JObj d)) (backend w) = (Some r, b') ->
  patch_section exchange u (JObj d) w =
  (if status_is r 200 "OK" then patch_success else patch_failure)
    {| globals :=
         <["response_patch" := VResponse r]>
           (<["req_title" := VJson y]>
              (<["todo" := VJson (JObj d)]>
                 (<["api_url" := VJson (JStr u)]> (globals w))));
       backend := b';
       sent := sent w ++ [json_request PATCH u (JObj d)];
       stdout := stdout w |}.
Proof.
  intros Hy E. destruct w as [g b s o]. cbn in E.
  unfold patch_section. exec. rewrite Hy. exec. rewrite E. exec.
  reflexivity.
Qed.

Lemma delete_section_answered (u : string) (w : World) r b' :
  exchange (plain_request DELETE u) (backend w) = (Some r, b') ->
  delete_section exchange u w =
  (if status_is r 200 "OK" then delete_success else delete_failure)
    {| globals := <["response_del" := VResponse r]>
                    (<["api_url" := VJson (JStr u)]> (globals w));
       backend := b';
       sent := sent w ++ [plain_request DELETE u];
       stdout := stdout w |}.
Proof.
  intros E. destruct w as [g b s o]. cbn in E.
  unfold delete_section. exec. rewrite E. exec. reflexivity.
Qed.

(** *** The [else] branches *)


Lemma get_failure_run (w : World) r :
  globals w !! "response_get" = Some (VResponse r) ->
  get_failure w = reported "GET /todos/1" r w.
Proof.
  intros H. destruct w as [g b s o]. cbn in H.
  unfold get_failure. exec. rewrite H. reflexivity.
Qed.

Lemma post_failure_run (w : World) r :
  globals w !! "response_post" = Some (VResponse r) ->
  post_failure w = reported "POST /todos" r w.
Proof.
  intros H. destruct w as [g b s o]. cbn in H.
  unfold post_failure. exec. rewrite H. reflexivity.
Qed.

Lemma put_failure_run (w : World) r :
  globals w !! "response_put" = Some (VResponse r) ->
  put_failure w = reported "PUT /todos" r w.
Proof.
  intros H. destruct w as [g b s o]. cbn in H.
  unfold put_failure. exec. rewrite H. reflexivity.
Qed.

Lemma patch_failure_run (w : World) r :
  globals w !! "response_patch" = Some (VResponse r) ->
  patch_failure w = reported "PATCH /todos/10" r w.
Proof.
  intros H. destruct w as [g b s o]. cbn in H.
  unfold patch_failure. exec. rewrite H. reflexivity.
Qed.

Lemma delete_failure_run (w : World) r :
  globals w !! "response_del" = Some (VResponse r) ->
  delete_failure w = reported "PATCH /todos/10" r w.
Proof.
  intros H. destruct w as [g b s o]. cbn in H.
  unfold delete_failure. exec. rewrite H. reflexivity.
Qed.

(** *** The [then] branches *)


Ltac quiet_leaf :=
  intros ? <-; eexists; cbn [snd stdout sent backend];
  split;
  [ first [ symmetry; apply app_nil_r
          | rewrite <- ?app_assoc; reflexivity ]
  | split; [reflexivity | split; reflexivity] ].

Ltac unfold_branch :=
  unfold get_success, post_success, put_success, patch_success,
    delete_success, compare_fields.

Ltac quiet_run :=
  match goal with
  | |- quiet ?w ?t =>
      generalize (eq_refl t);
      generalize t at 2 3;
      destruct w as [g b s o]; unfold_branch;
      explore; quiet_leaf
  end.

Lemma get_success_quiet (w : World) : quiet w (get_success w).
Proof. quiet_run. Qed.

Lemma post_success_quiet (w : World) : quiet w (post_success w).
Proof. quiet_run. Qed.

Lemma put_success_quiet (w : World) : quiet w (put_success w).
Proof. quiet_run. Qed.

Lemma patch_success_quiet (w : World) : quiet w (patch_success w).
Proof. quiet_run. Qed.

Lemma delete_success_quiet (w : World) : quiet w (delete_success w).
Proof. quiet_run. Qed.

(** A body that is not JSON: [json.loads] raises, nothing catches. *)
Ltac decode_error :=
  intros Hr Hbody;
  match goal with
  | |- _ ?w = _ => destruct w as [g b s o]
  end;
  cbn in Hr; unfold_branch; exec; rewrite Hr; exec; rewrite Hbody;
  reflexivity.

Lemma get_success_decode_error (w : World) r :
  globals w !! "response_get" = Some (VResponse r) ->
  json_loads (text r) = Invalid ->
  get_success w = (Raise JSONDecodeError, w).
Proof. decode_error. Qed.

Lemma post_success_decode_error (w : World) r :
  globals w !! "response_post" = Some (VResponse r) ->
  json_loads (text r) = Invalid ->
  post_success w = (Raise JSONDecodeError, w).
Proof. decode_error. Qed.

Lemma put_success_decode_error (w : World) r :
  globals w !! "response_put" = Some (VResponse r) ->
  json_loads (text r) = Invalid ->
  put_success w = (Raise JSONDecodeError, w).
Proof. decode_error. Qed.

Lemma patch_success_decode_error (w : World) r :
  globals w !! "response_patch" = Some (VResponse r) ->
  json_loads (text r) = Invalid ->
  patch_success w = (Raise JSONDecodeError, w).
Proof. decode_error. Qed.

(** A body of the grammar that the model has no value for: the model
    follows the run no further. *)
Lemma get_success_beyond (w : World) r :
  globals w !! "response_get" = Some (VResponse r) ->
  json_loads (text r) = Beyond ->
  get_success w = (Raise Unmodelled, w).
Proof. decode_error. Qed.

Lemma delete_success_run (w : World) r0 :
  globals w !! "response" = Some (VResponse r0) ->
  delete_success w =
  (Ok tt, {| globals := globals w;
             backend := backend w;
             sent := sent w;
             stdout := stdout w ++ [success_report "DELETE /todos/10" r0] |}).
Proof.
  intros H. destruct w as [g b s o]. cbn in H.
  unfold delete_success. exec. rewrite H. reflexivity.
Qed.

(** *** When the transport fails *)

Lemma get_section_unreachable (u : string) (w : World) b' :
  exchange (plain_request GET u) (backend w) = (None, b') ->
  fst (get_section exchange u w) = Raise ConnectionError /\
  stdout (snd (get_section exchange u w)) = stdout w.
Proof.
  intros E. destruct w as [g b s o]. cbn in E.
  unfold get_section. exec. rewrite E. split; reflexivity.
Qed.

Lemma post_section_unreachable (u : string) d x y z (w : World) b' :
  Dict.get "userId" d = Some x ->
  Dict.get "title" d = Some y ->
  Dict.get "completed" d = Some z ->
  exchange (json_request POST u (JObj d)) (backend w) = (None, b') ->
  fst (post_section exchange u (JObj d) w) = Raise ConnectionError /\
  stdout (snd (post_section exchange u (JObj d) w)) = stdout w.
Proof.
  intros Hx Hy Hz E. destruct w as [g b s o]. cbn in E.
  unfold post_section. exec. rewrite Hx. exec. rewrite Hy. exec.
  rewrite Hz. exec. rewrite E. split; reflexivity.
Qed.

Lemma put_section_unreachable (u : string) d x y z (w : World) r0 b0 b' :
  Dict.get "userId" d = Some x ->
  Dict.get "title" d = Some y ->
  Dict.get "completed" d = Some z ->
  exchange (plain_request GET u) (backend w) = (Some r0, b0) ->
  exchange (json_request PUT u (JObj d)) b0 = (None, b') ->
  fst (put_section exchange u (JObj d) w) = Raise ConnectionError /\
  stdout (snd (put_section exchange u (JObj d) w)) = stdout w /\
  sent (snd (put_section exchange u (JObj d) w))
  = (sent w ++ [plain_request GET u; json_request PUT u (JObj d)])%list.
Proof.
  intros Hx Hy Hz E0 E. destruct w as [g b s o]. cbn in E0.
  unfold put_section. exec. rewrite E0. exec. rewrite Hx. exec.
  rewrite Hy. exec. rewrite Hz. exec. rewrite E.
  cbn. rewrite <- app_assoc. repeat split; reflexivity.
Qed.

Lemma patch_section_unreachable (u : string) d y (w : World) b' :
  Dict.get "title" d = Some y ->
  exchange (json_request PATCH u (JObj d)) (backend w) = (None, b') ->
  fst (patch_section exchange u (JObj d) w) = Raise ConnectionError /\
  stdout (snd (patch_section exchange u (JObj d) w)) = stdout w /\
  sent (snd (patch_section exchange u (JObj d) w))
  = (sent w ++ [json_request PATCH u (JObj d)])%list.
Proof.
  intros Hy E. destruct w as [g b s o]. cbn in E.
  unfold patch_section. exec. rewrite Hy. exec. rewrite E.
  repeat split; reflexivity.
Qed.

(** *** The report of a successful PUT *)

Lemma put_success_reports_response (w : World) r r0 v :
  globals w !! "response_put" = Some (VResponse r) ->
  globals w !! "response" = Some (VResponse r0) ->
  json_loads (text r) = Decoded v ->
  (exists rest,
      stdout (snd (put_success w))
      = (stdout w ++ success_report "PUT /todos" r0 :: rest)%list) /\
  globals (snd (put_success w)) !! "response" = Some (VResponse r0).
Proof.
  intros Hr Hr0 Hv.
  generalize (eq_refl (put_success w)).
  generalize (put_success w) at 2 3 4.
  destruct w as [g b s o]. cbn in Hr, Hr0. unfold_branch.
  explore;
    (intros ? <-; cbn [snd stdout globals]; split;
     [ eexists; rewrite <- ?app_assoc; reflexivity
     | map_simpl; assumption ]).
Qed.

(** A [then] branch whose body decodes binds the value to [resp_py]
    and prints its report of success first. *)
Ltac decodes_run t :=
  generalize (eq_refl t);
  generalize t at 2 3 4;
  match goal with
  | |- forall _, _ ?w = _ -> _ => destruct w as [g b s o]
  end.

Ltac decodes_leaf :=
  intros ? <-; cbn [snd stdout globals]; split;
  [ eexists; rewrite <- ?app_assoc; reflexivity
  | map_simpl; reflexivity ].

Lemma get_success_decodes (w : World) r v :
  globals w !! "response_get" = Some (VResponse r) ->
  json_loads (text r) = Decoded v ->
  (exists rest,
      stdout (snd (get_success w))
      = (stdout w ++ success_report "GET /todos/1" r :: rest)%list) /\
  globals (snd (get_success w)) !! "resp_py" = Some (VJson v).
Proof.
  intros Hr Hv. decodes_run (get_success w).
  cbn in Hr. unfold_branch. explore; decodes_leaf.
Qed.

Lemma post_success_decodes (w : World) r v :
  globals w !! "response_post" = Some (VResponse r) ->
  json_loads (text r) = Decoded v ->
  (exists rest,
      stdout (snd (post_success w))
      = (stdout w ++ success_report "POST /todos" r :: rest)%list) /\
  globals (snd (post_success w)) !! "resp_py" = Some (VJson v).
Proof.
  intros Hr Hv. decodes_run (post_success w).
  cbn in Hr. unfold_branch. explore; decodes_leaf.
Qed.

Lemma put_success_decodes (w : World) r r0 v :
  globals w !! "response_put" = Some (VResponse r) ->
  globals w !! "response" = Some (VResponse r0) ->
  json_loads (text r) = Decoded v ->
  (exists rest,
      stdout (snd (put_success w))
      = (stdout w ++ success_report "PUT /todos" r0 :: rest)%list) /\
  globals (snd (put_success w)) !! "resp_py" = Some (VJson v).
Proof.
  intros Hr Hr0 Hv. decodes_run (put_success w).
  cbn in Hr, Hr0. unfold_branch. explore; decodes_leaf.
Qed.

Lemma patch_success_decodes (w : World) r v :
  globals w !! "response_patch" = Some (VResponse r) ->
  json_loads (text r) = Decoded v ->
  (exists rest,
      stdout (snd (patch_success w))
      = (stdout w ++ success_report "PATCH /todos/10" r :: rest)%list) /\
  globals (snd (patch_success w)) !! "resp_py" = Some (VJson v).
Proof.
  intros Hr Hv. decodes_run (patch_success w).
  cbn in Hr. unfold_branch. explore; decodes_leaf.
Qed.

(** The PATCH section never rebinds [response]. *)
Lemma patch_section_keeps_response (u : string) (todo : json) (w : World) :
  globals (snd (patch_section exchange u todo w)) !! "response"
  = globals w !! "response".
Proof.
  generalize (eq_refl (patch_section exchange u todo w)).
  generalize (patch_section exchange u todo w) at 2 3.
  destruct w as [g b s o]. unfold patch_section, patch_failure.
  unfold_branch.
  explore; (intros ? <-; cbn [snd globals]; map_simpl; reflexivity).
Qed.

(** *** The run of a successful POST, and of a successful GET *)


Lemma get_success_binds_resource (w : World) r v :
  globals w !! "response_get" = Some (VResponse r) ->
  json_loads (text r) = Decoded v ->
  globals (snd (get_success w)) !! "resp_py" = Some (VJson v).
Proof.
  intros Hr Hv.
  generalize (eq_refl (get_success w)).
  generalize (get_success w) at 2 3.
  destruct w as [g b s o]. cbn in Hr. unfold_branch.
  explore; (intros ? <-; cbn [snd globals]; map_simpl; reflexivity).
Qed.

(** The outcome and the lines of the [then] branch of the GET section
    depend on the response alone. *)
Lemma get_success_same (w1 w2 : World) r :
  globals w1 !! "response_get" = Some (VResponse r) ->
  globals w2 !! "response_get" = Some (VResponse r) ->
  fst (get_success w1) = fst (get_success w2) /\
  exists lines,
    stdout (snd (get_success w1)) = (stdout w1 ++ lines)%list /\
    stdout (snd (get_success w2)) = (stdout w2 ++ lines)%list.
Proof.
  intros H1 H2.
  generalize (eq_refl (get_success w1)).
  generalize (get_success w1) at 2 3 4.
  generalize (eq_refl (get_success w2)).
  generalize (get_success w2) at 2 3 4.
  destruct w1 as [g1 b1 s1 o1]. destruct w2 as [g2 b2 s2 o2].
  cbn in H1, H2. unfold_branch.
  explore;
    (intros ? <- ? <-; cbn [fst snd stdout]; split; [reflexivity|];
     eexists; split;
     first [ symmetry; apply app_nil_r
           | rewrite <- ?app_assoc; reflexivity ]).
Qed.

(** *** The POST with the body serialized by hand *)

(** The request of the manual POST, whatever the payload. *)
Lemma manual_post_request (u : string) (todo : json) (w : World) :
  sent (snd (post_data_section exchange u todo
               (JObj [("Content-Type", JStr "application/json")]) w))
  = (sent w ++ [data_request POST u (json_dumps todo)
                  [("Content-Type", "application/json")]])%list.
Proof.
  generalize (eq_refl (post_data_section exchange u todo
               (JObj [("Content-Type", JStr "application/json")]) w)).
  generalize (post_data_section exchange u todo
               (JObj [("Content-Type", JStr "application/json")]) w)
    at 2 3.
  destruct w as [g b s o]. unfold post_data_section.
  explore; (intros ? <-; reflexivity).
Qed.

(** X1.  Lines 396-398 and 424-425 of the source: the POST that passes
    [data=json.dumps(todo)] and the content-type header sends the request
    that the POST with [json=todo] sends, for every payload but [None]:
    [json=None] sends no body and no content type, and
    [data=json.dumps(None)] sends the text [null]. *)
Theorem manual_post_sends_the_same_request (u : string) (todo : json)
        (w : World) :
  sent (snd (post_data_section exchange u todo
               (JObj [("Content-Type", JStr "application/json")]) w))
  = (sent w ++ [json_request POST u todo])%list
  <-> todo <> JNull.
Proof.
  rewrite manual_post_request. unfold data_request.
  pose proof (Codec.dumps_not_empty todo) as Hne.
  split.
  - intros H ->. apply app_inv_head in H.
    apply (f_equal (fun l => match l with
                             | q :: _ => body q
                             | [] => None
                             end)) in H.
    vm_compute in H. discriminate H.
  - intros Hnull. f_equal. f_equal.
    destruct (json_dumps todo) eqn:Hd; [congruence|].
    destruct todo; first [congruence | rewrite <- Hd; reflexivity].
Qed.

(** *** Each section takes one of its two branches *)

Ltac branch_facts quiet_lemma failure_lemma :=
  split; [split|];
  [ intros Hs; rewrite Hs;
    match goal with
    | |- no_failure_report _ (_ ?W) =>
        destruct (quiet_lemma W) as (lines & H1 & H2 & _);
        exists lines; split; [exact H1 | exact H2]
    end
  | intros Hs; rewrite Hs; erewrite failure_lemma by apply lookup_insert_eq;
    split; reflexivity
  | intros Hs; rewrite Hs; erewrite failure_lemma by apply lookup_insert_eq;
    apply lookup_insert_eq ].

Lemma get_section_branches (u : string) (w : World) r b' :
  exchange (plain_request GET u) (backend w) = (Some r, b') ->
  ((status_is r 200 "OK" = true ->
    no_failure_report w (get_section exchange u w)) /\
   (status_is r 200 "OK" = false ->
    unsuccessful "GET /todos/1" r w (get_section exchange u w))) /\
  (status_is r 200 "OK" = false ->
   globals (snd (get_section exchange u w)) !! "response_get"
   = Some (VResponse r)).
Proof.
  intros E. rewrite (get_section_answered u w r b' E).
  branch_facts get_success_quiet get_failure_run.
Qed.

Lemma post_section_branches (u : string) d x y z (w : World) r b' :
  Dict.get "userId" d = Some x ->
  Dict.get "title" d = Some y ->
  Dict.get "completed" d = Some z ->
  exchange (json_request POST u (JObj d)) (backend w) = (Some r, b') ->
  ((status_is r 201 "Created" = true ->
    no_failure_report w (post_section exchange u (JObj d) w)) /\
   (status_is r 201 "Created" = false ->
    unsuccessful "POST /todos" r w (post_section exchange u (JObj d) w))) /\
  (status_is r 201 "Created" = false ->
   globals (snd (post_section exchange u (JObj d) w)) !! "response_post"
   = Some (VResponse r)).
Proof.
  intros Hx Hy Hz E.
  rewrite (post_section_answered u d x y z w r b' Hx Hy Hz E).
  branch_facts post_success_quiet post_failure_run.
Qed.

Lemma put_section_branches (u : string) d x y z (w : World) r0 b0 r b' :
  Dict.get "userId" d = Some x ->
  Dict.get "title" d = Some y ->
  Dict.get "completed" d = Some z ->
  exchange (plain_request GET u) (backend w) = (Some r0, b0) ->
  exchange (json_request PUT u (JObj d)) b0 = (Some r, b') ->
  ((status_is r 200 "OK" = true ->
    no_failure_report w (put_section exchange u (JObj d) w)) /\
   (status_is r 200 "OK" = false ->
    unsuccessful "PUT /todos" r w (put_section exchange u (JObj d) w))) /\
  (status_is r 200 "OK" = false ->
   globals (snd (put_section exchange u (JObj d) w)) !! "response_put"
   = Some (VResponse r)).
Proof.
  intros Hx Hy Hz E0 E.
  rewrite (put_section_answered u d x y z w r0 b0 r b' Hx Hy Hz E0 E).
  branch_facts put_success_quiet put_failure_run.
Qed.

Lemma patch_section_branches (u : string) d y (w : World) r b' :
  Dict.get "title" d = Some y ->
  exchange (json_request PATCH u (JObj d)) (backend w) = (Some r, b') ->
  ((status_is r 200 "OK" = true ->
    no_failure_report w (patch_section exchange u (JObj d) w)) /\
   (status_is r 200 "OK" = false ->
    unsuccessful "PATCH /todos/10" r w
                 (patch_section exchange u (JObj d) w))) /\
  (status_is r 200 "OK" = false ->
   globals (snd (patch_section exchange u (JObj d) w)) !! "response_patch"
   = Some (VResponse r)).
Proof.
  intros Hy E.
  rewrite (patch_section_answered u d y w r b' Hy E).
  branch_facts patch_success_quiet patch_failure_run.
Qed.

Lemma delete_section_branches (u : string) (w : World) r b' :
  exchange (plain_request DELETE u) (backend w) = (Some r, b') ->
  ((status_is r 200 "OK" = true ->
    no_failure_report w (delete_section exchange u w)) /\
   (status_is r 200 "OK" = false ->
    unsuccessful "PATCH /todos/10" r w (delete_section exchange u w))) /\
  (status_is r 200 "OK" = false ->
   globals (snd (delete_section exchange u w)) !! "response_del"
   = Some (VResponse r)).
Proof.
  intros E. rewrite (delete_section_answered u w r b' E).
  branch_facts delete_success_quiet delete_failure_run.
Qed.

(** A failure report is a failure report: the two outcomes exclude each
    other. *)
Lemma unsuccessful_not_quiet (what : string) (r : Response) (w : World)
      (out : result unit * World) :
  unsuccessful what r w out -> no_failure_report w out -> False.
Proof.
  intros [_ Hu] (lines & Hl & Hq). rewrite Hu in Hl.
  apply app_inv_head in Hl. subst lines. discriminate Hq.
Qed.

(** *** Classification by status code *)

Ltac two_way Hbranches :=
  destruct Hbranches as [[Hok Hko] _];
  split; [|split; [|split]];
  [ match type of Hok with
    | ?t = true -> _ =>
        destruct t; [right; exact (Hok eq_refl) | left; exact (Hko eq_refl)]
    end
  | intros [Hu Hq]; exact (unsuccessful_not_quiet _ _ _ _ Hu Hq)
  | intros Hne; apply Hko, status_is_false; left; exact Hne
  | ].

Ltac succeeds Hs Hanswered Hdecodes :=
  intros v Hv; rewrite Hanswered, Hs;
  match goal with
  | |- (exists rest, stdout (snd (_ ?W)) = _) /\ _ => eapply (Hdecodes W)
  end;
  [ apply lookup_insert_eq
  | try (cbn [globals]; map_simpl; reflexivity).. ];
  exact Hv.

(** C1, as amended.  The test applied after each exchange is total and
    deterministic over all integer status codes, with two outcomes, not
    six: a section either prints the one [Unsuccessful] report, carrying
    the status code and the reason, or prints no such report, never both.
    Every status other than the single code the section expects (200
    for GET, PUT, PATCH and DELETE, 201 for POST) gives the
    [Unsuccessful] report, whether it lies in 2xx, 3xx, 4xx, 5xx or
    outside 100-599.  The expected status with the expected reason gives
    success: no [Unsuccessful] report and, once the body has decoded,
    the decoded value bound to [resp_py] and the report of success
    printed first; the DELETE section decodes nothing and prints its
    report of success alone. *)
Theorem classification_is_two_way :
  (forall u (w : World) r b',
      exchange (plain_request GET u) (backend w) = (Some r, b') ->
      let out := get_section exchange u w in
      (unsuccessful "GET /todos/1" r w out \/ no_failure_report w out) /\
      ~ (unsuccessful "GET /todos/1" r w out /\ no_failure_report w out) /\
      (status_code r <> 200 -> unsuccessful "GET /todos/1" r w out) /\
      (status_code r = 200 -> reason r = "OK" ->
       no_failure_report w out /\
       forall v, json_loads (text r) = Decoded v ->
         (exists rest,
             stdout (snd out)
             = (stdout w ++ success_report "GET /todos/1" r :: rest)%list) /\
         globals (snd out) !! "resp_py" = Some (VJson v))) /\
  (forall u d x y z (w : World) r b',
      Dict.get "userId" d = Some x ->
      Dict.get "title" d = Some y ->
      Dict.get "completed" d = Some z ->
      exchange (json_request POST u (JObj d)) (backend w) = (Some r, b') ->
      let out := post_section exchange u (JObj d) w in
      (unsuccessful "POST /todos" r w out \/ no_failure_report w out) /\
      ~ (unsuccessful "POST /todos" r w out /\ no_failure_report w out) /\
      (status_code r <> 201 -> unsuccessful "POST /todos" r w out) /\
      (status_code r = 201 -> reason r = "Created" ->
       no_failure_report w out /\
       forall v, json_loads (text r) = Decoded v ->
         (exists rest,
             stdout (snd out)
             = (stdout w ++ success_report "POST /todos" r :: rest)%list) /\
         globals (snd out) !! "resp_py" = Some (VJson v))) /\
  (forall u d x y z (w : World) r0 b0 r b',
      Dict.get "userId" d = Some x ->
      Dict.get "title" d = Some y ->
      Dict.get "completed" d = Some z ->
      exchange (plain_request GET u) (backend w) = (Some r0, b0) ->
      exchange (json_request PUT u (JObj d)) b0 = (Some r, b') ->
      let out := put_section exchange u (JObj d) w in
      (unsuccessful "PUT /todos" r w out \/ no_failure_report w out) /\
      ~ (unsuccessful "PUT /todos" r w out /\ no_failure_report w out) /\
      (status_code r <> 200 -> unsuccessful "PUT /todos" r w out) /\
      (status_code r = 200 -> reason r = "OK" ->
       no_failure_report w out /\
       forall v, json_loads (text r) = Decoded v ->
         (exists rest,
             stdout (snd out)
             = (stdout w ++ success_report "PUT /todos" r0 :: rest)%list) /\
         globals (snd out) !! "resp_py" = Some (VJson v))) /\
  (forall u d y (w : World) r b',
      Dict.get "title" d = Some y ->
      exchange (json_request PATCH u (JObj d)) (backend w) = (Some r, b') ->
      let out := patch_section exchange u (JObj d) w in
      (unsuccessful "PATCH /todos/10" r w out \/ no_failure_report w out) /\
      ~ (unsuccessful "PATCH /todos/10" r w out
         /\ no_failure_report w out) /\
      (status_code r <> 200 -> unsuccessful "PATCH /todos/10" r w out) /\
      (status_code r = 200 -> reason r = "OK" ->
       no_failure_report w out /\
       forall v, json_loads (text r) = Decoded v ->
         (exists rest,
             stdout (snd out)
             = (stdout w ++ success_report "PATCH /todos/10" r :: rest)%list)
         /\
         globals (snd out) !! "resp_py" = Some (VJson v))) /\
  (forall u (w : World) r b',
      exchange (plain_request DELETE u) (backend w) = (Some r, b') ->
      let out := delete_section exchange u w in
      (unsuccessful "PATCH /todos/10" r w out \/ no_failure_report w out) /\
      ~ (unsuccessful "PATCH /todos/10" r w out
         /\ no_failure_report w out) /\
      (status_code r <> 200 -> unsuccessful "PATCH /todos/10" r w out) /\
      (status_code r = 200 -> reason r = "OK" ->
       no_failure_report w out /\
       forall r0, globals w !! "response" = Some (VResponse r0) ->
         fst out = Ok tt /\
         stdout (snd out)
         = (stdout w ++ [success_report "DELETE /todos/10" r0])%list)).
Proof.
  repeat apply conj.
  - intros u w r b' E out. subst out.
    two_way (get_section_branches u w r b' E).
    intros Hc Hp.
    pose proof (proj2 (status_is_true r 200 "OK") (conj Hc Hp)) as Hs.
    split; [exact (Hok Hs)|].
    succeeds Hs (get_section_answered u w r b' E) get_success_decodes.
  - intros u d x y z w r b' Hx Hy Hz E out. subst out.
    two_way (post_section_branches u d x y z w r b' Hx Hy Hz E).
    intros Hc Hp.
    pose proof (proj2 (status_is_true r 201 "Created") (conj Hc Hp)) as Hs.
    split; [exact (Hok Hs)|].
    succeeds Hs (post_section_answered u d x y z w r b' Hx Hy Hz E)
             post_success_decodes.
  - intros u d x y z w r0 b0 r b' Hx Hy Hz E0 E out. subst out.
    two_way (put_section_branches u d x y z w r0 b0 r b' Hx Hy Hz E0 E).
    intros Hc Hp.
    pose proof (proj2 (status_is_true r 200 "OK") (conj Hc Hp)) as Hs.
    split; [exact (Hok Hs)|].
    succeeds Hs (put_section_answered u d x y z w r0 b0 r b' Hx Hy Hz E0 E)
             put_success_decodes.
  - intros u d y w r b' Hy E out. subst out.
    two_way (patch_section_branches u d y w r b' Hy E).
    intros Hc Hp.
    pose proof (proj2 (status_is_true r 200 "OK") (conj Hc Hp)) as Hs.
    split; [exact (Hok Hs)|].
    succeeds Hs (patch_section_answered u d y w r b' Hy E)
             patch_success_decodes.
  - intros u w r b' E out. subst out.
    two_way (delete_section_branches u w r b' E).
    intros Hc Hp.
    pose proof (proj2 (status_is_true r 200 "OK") (conj Hc Hp)) as Hs.
    split; [exact (Hok Hs)|].
    intros r0 H0. rewrite (delete_section_answered u w r b' E), Hs.
    rewrite (delete_success_run _ r0)
      by (cbn [globals]; map_simpl; exact H0).
    split; reflexivity.
Qed.

(** *** The reason phrase *)

Ltac reason_gate Hbranches :=
  destruct Hbranches as [[Hok Hko] _];
  match goal with
  | |- context [unsuccessful ?what ?r ?w ?out] =>
      destruct (status_is r _ _) eqn:Hs;
      [ apply status_is_true in Hs as [Hc Hp]
      | apply status_is_false in Hs ];
      (split; [split|]);
      [ intros _; auto
      | intros _; auto
      | intros _ Hne; congruence
      | intros Hq; exfalso;
        exact (unsuccessful_not_quiet _ _ _ _ (Hko eq_refl) Hq)
      | intros [Hc Hp]; destruct Hs; congruence
      | intros _ _; auto ]
  end.

(** C9.  Success depends on the reason phrase as well as on the status
    code: a section prints no [Unsuccessful] report exactly when the
    status equals the expected code and the reason equals the expected
    phrase (200 with OK; 201 with Created for POST), so a response with
    the expected status and another reason is reported unsuccessful. *)
Theorem success_needs_status_and_reason :
  (forall u (w : World) r b',
      exchange (plain_request GET u) (backend w) = (Some r, b') ->
      let out := get_section exchange u w in
      (no_failure_report w out <->
       status_code r = 200 /\ reason r = "OK") /\
      (status_code r = 200 -> reason r <> "OK" ->
       unsuccessful "GET /todos/1" r w out)) /\
  (forall u d x y z (w : World) r b',
      Dict.get "userId" d = Some x ->
      Dict.get "title" d = Some y ->
      Dict.get "completed" d = Some z ->
      exchange (json_request POST u (JObj d)) (backend w) = (Some r, b') ->
      let out := post_section exchange u (JObj d) w in
      (no_failure_report w out <->
       status_code r = 201 /\ reason r = "Created") /\
      (status_code r = 201 -> reason r <> "Created" ->
       unsuccessful "POST /todos" r w out)) /\
  (forall u d x y z (w : World) r0 b0 r b',
      Dict.get "userId" d = Some x ->
      Dict.get "title" d = Some y ->
      Dict.get "completed" d = Some z ->
      exchange (plain_request GET u) (backend w) = (Some r0, b0) ->
      exchange (json_request PUT u (JObj d)) b0 = (Some r, b') ->
      let out := put_section exchange u (JObj d) w in
      (no_failure_report w out <->
       status_code r = 200 /\ reason r = "OK") /\
      (status_code r = 200 -> reason r <> "OK" ->
       unsuccessful "PUT /todos" r w out)) /\
  (forall u d y (w : World) r b',
      Dict.get "title" d = Some y ->
      exchange (json_request PATCH u (JObj d)) (backend w) = (Some r, b') ->
      let out := patch_section exchange u (JObj d) w in
      (no_failure_report w out <->
       status_code r = 200 /\ reason r = "OK") /\
      (status_code r = 200 -> reason r <> "OK" ->
       unsuccessful "PATCH /todos/10" r w out)) /\
  (forall u (w : World) r b',
      exchange (plain_request DELETE u) (backend w) = (Some r, b') ->
      let out := delete_section exchange u w in
      (no_failure_report w out <->
       status_code r = 200 /\ reason r = "OK") /\
      (status_code r = 200 -> reason r <> "OK" ->
       unsuccessful "PATCH /todos/10" r w out)).
Proof.
  repeat apply conj.
  - intros u w r b' E out. subst out.
    reason_gate (get_section_branches u w r b' E).
  - intros u d x y z w r b' Hx Hy Hz E out. subst out.
    reason_gate (post_section_branches u d x y z w r b' Hx Hy Hz E).
  - intros u d x y z w r0 b0 r b' Hx Hy Hz E0 E out. subst out.
    reason_gate (put_section_branches u d x y z w r0 b0 r b' Hx Hy Hz E0 E).
  - intros u d y w r b' Hy E out. subst out.
    reason_gate (patch_section_branches u d y w r b' Hy E).
  - intros u w r b' E out. subst out.
    reason_gate (delete_section_branches u w r b' E).
Qed.

(** *** The response after a failure *)





(** *** DELETE *)

(** C2, as amended.  A DELETE answered with status 200 and reason OK is
    a success whatever its body, which is never decoded: the section ends
    normally after one success report and binds no payload ([resp_py] is
    left as it was).  A response with status 204, like one with any other
    status or reason, gives the one [Unsuccessful] report, which carries
    no failure kind. *)
Theorem delete_succeeds_on_200_OK_only (u : string) (w : World) r0 r b' :
  globals w !! "response" = Some (VResponse r0) ->
  exchange (plain_request DELETE u) (backend w) = (Some r, b') ->
  let out := delete_section exchange u w in
  (status_code r = 200 -> reason r = "OK" ->
   fst out = Ok tt /\
   (exists line, stdout (snd out) = (stdout w ++ [line])%list /\
                 is_success_report line = true) /\
   globals (snd out) !! "resp_py" = globals w !! "resp_py") /\
  (status_code r <> 200 \/ reason r <> "OK" ->
   unsuccessful "PATCH /todos/10" r w out).
Proof.
  intros H0 E out. subst out.
  destruct (delete_section_branches u w r b' E) as [[_ Hko] _].
  split.
  - intros Hc Hp. rewrite (delete_section_answered u w r b' E).
    rewrite (proj2 (status_is_true r 200 "OK") (conj Hc Hp)).
    rewrite (delete_success_run _ r0)
      by (cbn [globals]; map_simpl; exact H0).
    cbn [fst snd stdout globals].
    split; [reflexivity | split].
    + eexists. split; reflexivity.
    + map_simpl; try reflexivity.
  - intros Hne. apply Hko, status_is_false, Hne.
Qed.

(** *** Bodies that are not JSON *)

Ltac raises_decode_error Hanswered Hdecode :=
  intros Hc Hp Hbody;
  rewrite Hanswered, (proj2 (status_is_true _ _ _) (conj Hc Hp));
  erewrite Hdecode;
  [ split; reflexivity | apply lookup_insert_eq | exact Hbody ].

(** C3, as amended.  When the status and the reason pass the test but the
    body is not JSON, no failure outcome is returned: [json.loads] raises
    [JSONDecodeError], which the script does not catch, so the section
    stops there, before it has printed anything.  The exception is not
    the one of a transport failure, [ConnectionError], which a section
    raises when the exchange gets no response. *)
Theorem undecodable_body_raises :
  (forall u (w : World) r b',
      exchange (plain_request GET u) (backend w) = (Some r, b') ->
      status_code r = 200 -> reason r = "OK" ->
      json_loads (text r) = Invalid ->
      let out := get_section exchange u w in
      fst out = Raise JSONDecodeError /\ stdout (snd out) = stdout w) /\
  (forall u d x y z (w : World) r b',
      Dict.get "userId" d = Some x ->
      Dict.get "title" d = Some y ->
      Dict.get "completed" d = Some z ->
      exchange (json_request POST u (JObj d)) (backend w) = (Some r, b') ->
      status_code r = 201 -> reason r = "Created" ->
      json_loads (text r) = Invalid ->
      let out := post_section exchange u (JObj d) w in
      fst out = Raise JSONDecodeError /\ stdout (snd out) = stdout w) /\
  (forall u d x y z (w : World) r0 b0 r b',
      Dict.get "userId" d = Some x ->
      Dict.get "title" d = Some y ->
      Dict.get "completed" d = Some z ->
      exchange (plain_request GET u) (backend w) = (Some r0, b0) ->
      exchange (json_request PUT u (JObj d)) b0 = (Some r, b') ->
      status_code r = 200 -> reason r = "OK" ->
      json_loads (text r) = Invalid ->
      let out := put_section exchange u (JObj d) w in
      fst out = Raise JSONDecodeError /\ stdout (snd out) = stdout w) /\
  (forall u d y (w : World) r b',
      Dict.get "title" d = Some y ->
      exchange (json_request PATCH u (JObj d)) (backend w) = (Some r, b') ->
      status_code r = 200 -> reason r = "OK" ->
      json_loads (text r) = Invalid ->
      let out := patch_section exchange u (JObj d) w in
      fst out = Raise JSONDecodeError /\ stdout (snd out) = stdout w) /\
  (forall u (w : World) b',
      exchange (plain_request GET u) (backend w) = (None, b') ->
      fst (get_section exchange u w) = Raise ConnectionError) /\
  JSONDecodeError <> ConnectionError.
Proof.
  repeat apply conj.
  - intros u w r b' E.
    raises_decode_error (get_section_answered u w r b' E)
                        get_success_decode_error.
  - intros u d x y z w r b' Hx Hy Hz E.
    raises_decode_error (post_section_answered u d x y z w r b' Hx Hy Hz E)
                        post_success_decode_error.
  - intros u d x y z w r0 b0 r b' Hx Hy Hz E0 E.
    raises_decode_error
      (put_section_answered u d x y z w r0 b0 r b' Hx Hy Hz E0 E)
      put_success_decode_error.
  - intros u d y w r b' Hy E.
    raises_decode_error (patch_section_answered u d y w r b' Hy E)
                        patch_success_decode_error.
  - intros u w b' E. apply (get_section_unreachable u w b' E).
  - discriminate.
Qed.

(** *** Request bodies *)

(** C5.  The body of the PUT request handed to the transport is the
    caller's attribute mapping serialized to JSON, and nothing else:
    whatever the GET made before it returned and whatever the PUT gets
    back, the section sends that GET and then a PUT whose body is
    [json.dumps(todo)], a text that decodes to exactly [todo]. *)
Theorem put_sends_the_mapping_alone
        (u : string) d x y z (w : World) r0 b0 :
  wf_json (JObj d) ->
  Dict.get "userId" d = Some x ->
  Dict.get "title" d = Some y ->
  Dict.get "completed" d = Some z ->
  exchange (plain_request GET u) (backend w) = (Some r0, b0) ->
  exists q,
    sent (snd (put_section exchange u (JObj d) w))
    = (sent w ++ [plain_request GET u; q])%list /\
    method q = PUT /\
    body q = Some (json_dumps (JObj d)) /\
    json_loads (json_dumps (JObj d)) = Decoded (JObj d).
Proof.
  intros Hwf Hx Hy Hz E0. exists (json_request PUT u (JObj d)).
  split; [|split; [reflexivity | split;
                   [reflexivity | apply Codec.loads_dumps, Hwf]]].
  destruct (exchange (json_request PUT u (JObj d)) b0) as [[r|] b'] eqn:E.
  - rewrite (put_section_answered u d x y z w r0 b0 r b' Hx Hy Hz E0 E).
    destruct (status_is r 200 "OK").
    + match goal with
      | |- context [put_success ?W] =>
          destruct (put_success_quiet W) as (_ & _ & _ & -> & _)
      end.
      reflexivity.
    + erewrite put_failure_run by apply lookup_insert_eq. reflexivity.
  - apply (put_section_unreachable u d x y z w r0 b0 b' Hx Hy Hz E0 E).
Qed.

(** C6.  The body of the PATCH request is the caller's partial mapping
    serialized to JSON, and nothing else: the section sends one request,
    a PATCH whose body is [json.dumps(todo)], a text that decodes to
    exactly [todo], so the body has the fields of the call and no field
    absent from it. *)
Theorem patch_sends_the_partial_mapping_alone
        (u : string) d y (w : World) :
  wf_json (JObj d) ->
  Dict.get "title" d = Some y ->
  exists q text,
    sent (snd (patch_section exchange u (JObj d) w))
    = (sent w ++ [q])%list /\
    method q = PATCH /\
    body q = Some text /\
    text = json_dumps (JObj d) /\
    json_loads text = Decoded (JObj d) /\
    forall sent_fields k,
      json_loads text = Decoded (JObj sent_fields) ->
      Dict.get k d = None -> Dict.get k sent_fields = None.
Proof.
  intros Hwf Hy.
  pose proof (Codec.loads_dumps (JObj d) Hwf) as Hloads.
  exists (json_request PATCH u (JObj d)), (json_dumps (JObj d)).
  split; [|split; [reflexivity | split; [reflexivity | split;
    [reflexivity | split; [exact Hloads|]]]]].
  - destruct (exchange (json_request PATCH u (JObj d)) (backend w))
      as [[r|] b'] eqn:E.
    + rewrite (patch_section_answered u d y w r b' Hy E).
      destruct (status_is r 200 "OK").
      * match goal with
        | |- context [patch_success ?W] =>
            destruct (patch_success_quiet W) as (_ & _ & _ & -> & _)
        end.
        reflexivity.
      * erewrite patch_failure_run by apply lookup_insert_eq. reflexivity.
    + apply (patch_section_unreachable u d y w b' Hy E).
  - intros sent_fields k Hsent Hk. rewrite Hloads in Hsent.
    injection Hsent as <-. exact Hk.
Qed.

(** *** Which response the success reports print *)

(** C10.  The success reports of the PUT and DELETE sections print the
    status code and reason of the response bound to the global
    [response], that of the GET made at the top of the PUT section, not
    those of the PUT or DELETE response being tested: after a PUT
    answered 200 OK with a JSON body the first line printed is the
    success report of the GET response, and [response] is still bound to
    it; the PATCH section does not rebind [response]; and after a DELETE
    answered 200 OK the line printed is the success report of the
    response then bound to [response]. *)
Theorem success_reports_print_the_earlier_get :
  (forall u d x y z (w : World) r0 b0 r b' v,
      Dict.get "userId" d = Some x ->
      Dict.get "title" d = Some y ->
      Dict.get "completed" d = Some z ->
      exchange (plain_request GET u) (backend w) = (Some r0, b0) ->
      exchange (json_request PUT u (JObj d)) b0 = (Some r, b') ->
      status_code r = 200 -> reason r = "OK" ->
      json_loads (text r) = Decoded v ->
      let out := put_section exchange u (JObj d) w in
      (exists rest,
          stdout (snd out)
          = (stdout w ++ [Lit (nl +:+ " Successful PUT /todos, status:  ");
                          Fmt (JInt (status_code r0));
                          Lit " reason: ";
                          Fmt (JStr (reason r0))] :: rest)%list) /\
      globals (snd out) !! "response" = Some (VResponse r0)) /\
  (forall u todo (w : World),
      globals (snd (patch_section exchange u todo w)) !! "response"
      = globals w !! "response") /\
  (forall u (w : World) r0 r b',
      globals w !! "response" = Some (VResponse r0) ->
      exchange (plain_request DELETE u) (backend w) = (Some r, b') ->
      status_code r = 200 -> reason r = "OK" ->
      let out := delete_section exchange u w in
      fst out = Ok tt /\
      stdout (snd out)
      = (stdout w
           ++ [[Lit (nl +:+ " Successful DELETE /todos/10, status:  ");
                Fmt (JInt (status_code r0));
                Lit " reason: ";
                Fmt (JStr (reason r0))]])%list).
Proof.
  repeat apply conj.
  - intros u d x y z w r0 b0 r b' v Hx Hy Hz E0 E Hc Hp Hv out.
    subst out.
    rewrite (put_section_answered u d x y z w r0 b0 r b' Hx Hy Hz E0 E).
    rewrite (proj2 (status_is_true r 200 "OK") (conj Hc Hp)).
    match goal with
    | |- context [put_success ?W] =>
        destruct (put_success_reports_response W r r0 v)
          as [[rest Hrest] Hkeep]
    end.
    + apply lookup_insert_eq.
    + cbn [globals]. map_simpl; try reflexivity.
    + exact Hv.
    + split; [exists rest; exact Hrest | exact Hkeep].
  - apply patch_section_keeps_response.
  - intros u w r0 r b' H0 E Hc Hp out. subst out.
    rewrite (delete_section_answered u w r b' E).
    rewrite (proj2 (status_is_true r 200 "OK") (conj Hc Hp)).
    rewrite (delete_success_run _ r0)
      by (cbn [globals]; map_simpl; exact H0).
    split; reflexivity.
Qed.

(** *** Create *)


(** *** Reading twice *)

(** C8.  Reading the same item twice from a service that the GET leaves
    unchanged gives the same thing twice: the second run of the GET
    section ends as the first did, prints the same lines and leaves
    [resp_py] bound as the first did; when the response passes the test
    and its body is JSON, both runs bind [resp_py] to the one value the
    body decodes to. *)
Theorem get_twice_is_identical (u : string) (w : World) r :
  exchange (plain_request GET u) (backend w) = (Some r, backend w) ->
  let first := get_section exchange u w in
  let second := get_section exchange u (snd first) in
  fst second = fst first /\
  globals (snd second) !! "resp_py" = globals (snd first) !! "resp_py" /\
  (exists lines,
      stdout (snd first) = (stdout w ++ lines)%list /\
      stdout (snd second) = (stdout (snd first) ++ lines)%list) /\
  (forall v,
      status_code r = 200 -> reason r = "OK" ->
      json_loads (text r) = Decoded v ->
      globals (snd first) !! "resp_py" = Some (VJson v) /\
      globals (snd second) !! "resp_py" = Some (VJson v)).
Proof.
  intros E first second.
  assert (Hfirst : first = get_section exchange u w) by reflexivity.
  rewrite (get_section_answered u w r (backend w) E) in Hfirst.
  assert (Hback : backend (snd first) = backend w).
  { rewrite Hfirst. destruct (status_is r 200 "OK").
    - match goal with
      | |- context [get_success ?W] =>
          destruct (get_success_quiet W) as (_ & _ & _ & _ & ->)
      end.
      reflexivity.
    - erewrite get_failure_run by apply lookup_insert_eq. reflexivity. }
  assert (Hsecond : second = get_section exchange u (snd first))
    by reflexivity.
  rewrite (get_section_answered u (snd first) r (backend w)) in Hsecond
    by (rewrite Hback; exact E).
  clearbody first second.
  destruct (status_is r 200 "OK") eqn:Hs.
  - (* both runs take the [then] branch *)
    assert (B1 : forall v, json_loads (text r) = Decoded v ->
              globals (snd first) !! "resp_py" = Some (VJson v)).
    { intros v Hv. rewrite Hfirst.
      apply (get_success_binds_resource _ r v);
        [apply lookup_insert_eq | exact Hv]. }
    assert (B2 : forall v, json_loads (text r) = Decoded v ->
              globals (snd second) !! "resp_py" = Some (VJson v)).
    { intros v Hv. rewrite Hsecond.
      apply (get_success_binds_resource _ r v);
        [apply lookup_insert_eq | exact Hv]. }
    assert (D2 : json_loads (text r) = Invalid ->
              globals (snd second) !! "resp_py"
              = globals (snd first) !! "resp_py").
    { intros Hv. rewrite Hsecond.
      erewrite get_success_decode_error;
        [| apply lookup_insert_eq | exact Hv].
      cbn [snd globals]. map_simpl; try reflexivity. }
    assert (D3 : json_loads (text r) = Beyond ->
              globals (snd second) !! "resp_py"
              = globals (snd first) !! "resp_py").
    { intros Hv. rewrite Hsecond.
      erewrite get_success_beyond;
        [| apply lookup_insert_eq | exact Hv].
      cbn [snd globals]. map_simpl; try reflexivity. }
    assert (Hsame : fst first = fst second /\
              exists lines,
                stdout (snd first) = (stdout w ++ lines)%list /\
                stdout (snd second)
                = (stdout (snd first) ++ lines)%list).
    { match type of Hfirst with
      | _ = get_success ?W1 =>
          match type of Hsecond with
          | _ = get_success ?W2 =>
              pose proof (get_success_same W1 W2 r
                            ltac:(apply lookup_insert_eq)
                            ltac:(apply lookup_insert_eq)) as Hsame
          end
      end.
      rewrite <- Hsecond, <- Hfirst in Hsame. exact Hsame. }
    destruct Hsame as (Hres & lines & L1 & L2).
    repeat apply conj.
    + symmetry. exact Hres.
    + destruct (json_loads (text r)) as [v| |].
      * rewrite (B1 v eq_refl), (B2 v eq_refl). reflexivity.
      * apply D2. reflexivity.
      * apply D3. reflexivity.
    + exists lines. split; [exact L1 | exact L2].
    + intros v _ _ Hv. split; [apply B1, Hv | apply B2, Hv].
  - (* both runs take the [else] branch *)
    erewrite get_failure_run in Hfirst by apply lookup_insert_eq.
    erewrite get_failure_run in Hsecond by apply lookup_insert_eq.
    apply status_is_false in Hs. unfold reported in Hfirst, Hsecond.
    subst second. cbn [fst snd globals stdout]. subst first.
    cbn [fst snd globals stdout].
    repeat apply conj.
    + reflexivity.
    + map_simpl; try reflexivity.
    + eexists. split; reflexivity.
    + intros v Hc Hp. destruct Hs; contradiction.
Qed.

(** *** Summaries of the sections *)

Lemma runs_bind (r1 r2 : list Request) (P Q R : gmap string value -> Prop)
      (m k : M Backend unit) :
  runs r1 P Q m -> runs r2 Q R k ->
  runs (r1 ++ r2)%list P R (bind m (fun _ => k)).
Proof.
  intros Hm Hk w HP. specialize (Hm w HP). unfold bind.
  destruct (m w) as [[[]|e] w'] eqn:E; cbn [fst snd] in Hm |- *.
  - destruct Hm as ((l1 & Hs1 & _ & Hall) & _ & HQ).
    specialize (Hall eq_refl). subst l1.
    destruct (Hk w' (HQ eq_refl)) as ((l2 & Hs2 & Hp2 & Hall2) & He & HR).
    split; [|split; [exact He | exact HR]].
    exists (r1 ++ l2)%list. split; [|split].
    + rewrite Hs2, Hs1, app_assoc. reflexivity.
    + apply prefix_app, Hp2.
    + intros Hok. rewrite (Hall2 Hok). reflexivity.
  - destruct Hm as ((l1 & Hs1 & Hp1 & _) & He & _).
    split; [|split; [exact He | discriminate]].
    exists l1. split; [exact Hs1 | split; [|discriminate]].
    apply prefix_app_r, Hp1.
Qed.

Lemma runs_weaken (reqs : list Request)
      (P P' Q Q' : gmap string value -> Prop) (m : M Backend unit) :
  (forall g, P' g -> P g) -> (forall g, Q g -> Q' g) ->
  runs reqs P Q m -> runs reqs P' Q' m.
Proof.
  intros HP HQ Hm w Hw. destruct (Hm w (HP _ Hw)) as (Hs & He & Hq).
  split; [exact Hs | split; [exact He | auto]].
Qed.

Ltac runs_leaf :=
  intros ? <-; cbn [fst snd sent globals name_error];
  split;
  [ first
      [ exists []; split; [symmetry; apply app_nil_r|];
        split;
        [ apply prefix_nil
        | intros Hok; first [discriminate Hok | reflexivity] ]
      | eexists; split; [rewrite <- ?app_assoc; reflexivity|];
        split;
        [ first [ reflexivity | eexists; reflexivity ]
        | intros Hok; first [discriminate Hok | reflexivity] ] ]
  | split;
    [ reflexivity
    | intros Hok;
      first [ discriminate Hok
            | exact I
            | eexists; map_simpl; first [reflexivity | eassumption] ] ] ].

Ltac runs_explore m :=
  intros w HP;
  remember (m w) as out eqn:E; symmetry in E; revert out E;
  destruct w as [g b s o]; cbn [globals] in HP.

Lemma get_section_runs (u : string) :
  runs [plain_request GET u] (fun _ => True) (bound_response "response_get")
       (get_section exchange u).
Proof.
  runs_explore (get_section exchange u).
  unfold get_section, get_failure, bound_response. unfold_branch.
  explore; runs_leaf.
Qed.

Lemma deserialize_section_runs :
  runs [] (bound_response "response_get") (fun _ => True)
       (@deserialize_section Backend).
Proof.
  runs_explore (@deserialize_section Backend).
  destruct HP as [r0 Hr0]. unfold deserialize_section.
  explore; runs_leaf.
Qed.

Lemma post_section_runs (u : string) (todo : json) :
  runs [json_request POST u todo] (fun _ => True) (fun _ => True)
       (post_section exchange u todo).
Proof.
  runs_explore (post_section exchange u todo).
  unfold post_section, post_failure. unfold_branch.
  explore; runs_leaf.
Qed.

Lemma post_data_section_runs (u : string) (todo : json) :
  runs [data_request POST u (json_dumps todo)
          [("Content-Type", "application/json")]]
       (fun _ => True) (fun _ => True)
       (post_data_section exchange u todo
          (JObj [("Content-Type", JStr "application/json")])).
Proof.
  runs_explore (post_data_section exchange u todo
                  (JObj [("Content-Type", JStr "application/json")])).
  unfold post_data_section.
  explore; runs_leaf.
Qed.

Lemma put_section_runs (u : string) (todo : json) :
  runs [plain_request GET u; json_request PUT u todo]
       (fun _ => True) (bound_response "response")
       (put_section exchange u todo).
Proof.
  runs_explore (put_section exchange u todo).
  unfold put_section, put_failure, bound_response. unfold_branch.
  explore; runs_leaf.
Qed.

Lemma patch_section_runs (u : string) (todo : json) :
  runs [json_request PATCH u todo]
       (bound_response "response") (bound_response "response")
       (patch_section exchange u todo).
Proof.
  runs_explore (patch_section exchange u todo).
  destruct HP as [r0 Hr0].
  unfold patch_section, patch_failure, bound_response. unfold_branch.
  explore; runs_leaf.
Qed.

Lemma delete_section_runs (u : string) :
  runs [plain_request DELETE u] (bound_response "response") (fun _ => True)
       (delete_section exchange u).
Proof.
  runs_explore (delete_section exchange u).
  destruct HP as [r0 Hr0].
  unfold delete_section, delete_failure. unfold_branch.
  explore; runs_leaf.
Qed.

Lemma script_runs :
  runs script_requests (fun _ => True) (fun _ => True) (script exchange).
Proof.
  unfold script.
  apply (runs_bind [_] [_; _; _; _; _; _] _ _ _ _ _
           (get_section_runs todos_1)).
  apply (runs_bind [] [_; _; _; _; _; _] _ _ _ _ _
           deserialize_section_runs).
  apply (runs_bind [_] [_; _; _; _; _] _ _ _ _ _
           (post_section_runs todos _)).
  apply (runs_bind [_] [_; _; _; _] _ _ _ _ _
           (post_data_section_runs todos (todo_item 1 "By beer" false))).
  apply (runs_bind [_; _] [_; _] _ _ _ _ _
           (put_section_runs todos_10 _)).
  apply (runs_bind [_] [_] _ _ _ _ _
           (patch_section_runs todos_10 _)).
  apply delete_section_runs.
Qed.

(** X2.  Whatever the service does, the script hands to the transport a
    prefix of its seven requests, in the order of the source (GET
    /todos/1, POST, POST, GET /todos/10, PUT, PATCH, DELETE), each at most
    once, and all seven when it runs to the end: it never repeats a
    request and sends nothing after an exception. *)
Theorem script_sends_in_order (w : World) :
  exists l,
    sent (snd (script exchange w)) = (sent w ++ l)%list /\
    l `prefix_of` script_requests /\
    (fst (script exchange w) = Ok tt -> l = script_requests).
Proof. exact (proj1 (script_runs w I)). Qed.

(** X3.  Whatever the service does, the script never stops on a name
    read before it is bound or bound to the wrong kind of object: every
    global it reads was assigned earlier on the same path; in particular
    [response], read by the success report of DELETE, is bound by the PUT
    section whenever the DELETE section is reached. *)
Theorem script_never_misses_a_name (w : World) :
  name_error (fst (script exchange w)) = false.
Proof. exact (proj1 (proj2 (script_runs w I))). Qed.

(** *** What each decode needs of the body *)

Ltac table_leaf :=
  intros ? <-; cbn [fst snd stdout globals];
  repeat match goal with |- _ /\ _ => split end;
  first [ exact I
        | reflexivity
        | rewrite <- ?app_assoc; reflexivity
        | map_simpl; reflexivity ].

Ltac table_explore m w :=
  let Eout := fresh "Eout" in
  remember (m w) as out eqn:Eout; symmetry in Eout; revert out Eout;
  destruct w as [g b s o].

(** X4.  The second decode of the GET response (lines 324-336), which
    runs whichever branch the GET section took: a body that is not JSON
    ([Invalid]) raises [JSONDecodeError] before anything is printed; a
    JSON value that is not a dictionary raises [TypeError] after the type
    and the value are printed; a dictionary raises [KeyError] for the
    first of [userId], [title], [completed] it lacks, after the same two
    lines; and only a dictionary with the three keys lets the section
    end normally, with its three lines printed.  Nothing is said of a
    body that holds a float or a character above U+00FF ([Beyond]). *)
Theorem deserialize_section_outcomes (w : World) r :
  globals w !! "response_get" = Some (VResponse r) ->
  let out := deserialize_section w in
  match json_loads (text r) with
  | Invalid =>
      fst out = Raise JSONDecodeError /\ stdout (snd out) = stdout w
  | Decoded (JObj d) =>
      let shown :=
        [[Lit "<class 'dict'>"];
         [Lit (nl +:+ nl +:+ "response_py in Python DataType --> ");
          Fmt (JObj d)]] in
      match Dict.get "userId" d, Dict.get "title" d,
            Dict.get "completed" d with
      | Some x, Some y, Some z =>
          fst out = Ok tt /\
          globals (snd out) !! "resp_py" = Some (VJson (JObj d)) /\
          stdout (snd out)
          = (stdout w ++ shown ++
               [[Lit (nl +:+ "- Task '"); Fmt y;
                 Lit "' executed by user "; Fmt x;
                 Lit " is completed? "; Fmt z]])%list
      | None, _, _ =>
          fst out = Raise (KeyError "userId") /\
          stdout (snd out) = (stdout w ++ shown)%list
      | Some _, None, _ =>
          fst out = Raise (KeyError "title") /\
          stdout (snd out) = (stdout w ++ shown)%list
      | Some _, Some _, None =>
          fst out = Raise (KeyError "completed") /\
          stdout (snd out) = (stdout w ++ shown)%list
      end
  | Decoded v =>
      fst out = Raise TypeError /\
      stdout (snd out)
      = (stdout w ++
           [[Lit ("<class '" +:+ py_type v +:+ "'>")];
            [Lit (nl +:+ nl +:+ "response_py in Python DataType --> ");
             Fmt v]])%list
  | Beyond => True
  end.
Proof.
  intros Hr out. subst out.
  table_explore (@deserialize_section Backend) w. cbn in Hr.
  unfold deserialize_section.
  explore; table_leaf.
Qed.


(** X6.  Lines 301-324: the [else] branch of the GET section does not
    end the script.  After the report of failure the body of the same
    response is decoded all the same, so the run ends in
    [JSONDecodeError], [TypeError] or [KeyError] unless the body of the
    refused request is a dictionary with the three keys.  Which of these
    it is, is not said when the body holds a float or a character above
    U+00FF ([Beyond]). *)
Theorem failed_get_is_decoded_all_the_same (u : string) (w : World) r b' :
  exchange (plain_request GET u) (backend w) = (Some r, b') ->
  status_is r 200 "OK" = false ->
  let out := (bind (get_section exchange u) (fun _ => deserialize_section)) w in
  (exists rest,
      stdout (snd out)
      = (stdout w ++ failure_report "GET /todos/1" r :: rest)%list) /\
  match json_loads (text r) with
  | Invalid =>
      fst out = Raise JSONDecodeError
  | Decoded (JObj d) =>
      match Dict.get "userId" d, Dict.get "title" d,
            Dict.get "completed" d with
      | Some _, Some _, Some _ => fst out = Ok tt
      | None, _, _ => fst out = Raise (KeyError "userId")
      | Some _, None, _ => fst out = Raise (KeyError "title")
      | Some _, Some _, None => fst out = Raise (KeyError "completed")
      end
  | Decoded _ => fst out = Raise TypeError
  | Beyond => True
  end.
Proof.
  intros E Hs out. subst out.
  table_explore (bind (get_section exchange u) (fun _ => deserialize_section)) w.
  cbn in E.
  unfold get_section, get_success, get_failure, deserialize_section.
  explore;
    (intros ? <-; cbn [fst snd stdout globals]; split;
     [ eexists; rewrite <- ?app_assoc; reflexivity | reflexivity ]).
Qed.

(** X7.  Lines 276 and 322: when the GET section has ended normally on
    200 OK, the decode that follows it ends normally too, and binds
    [resp_py] to the value the section had bound it to. *)
Theorem get_then_decode_agree (u : string) (w : World) r b' :
  exchange (plain_request GET u) (backend w) = (Some r, b') ->
  status_is r 200 "OK" = true ->
  fst (get_section exchange u w) = Ok tt ->
  let out := (bind (get_section exchange u) (fun _ => deserialize_section)) w in
  fst out = Ok tt /\
  globals (snd out) !! "resp_py"
  = globals (snd (get_section exchange u w)) !! "resp_py".
Proof.
  intros E Hs Hok out. subst out. revert Hok.
  remember (get_section exchange u w) as out1 eqn:E1.
  symmetry in E1. revert out1 E1.
  table_explore (bind (get_section exchange u) (fun _ => deserialize_section)) w.
  cbn in E.
  unfold get_section, get_success, get_failure, deserialize_section.
  explore;
    (intros ? <- ? <-; cbn [fst snd stdout globals]; intros Hok;
     first [ discriminate Hok
           | split; [reflexivity | map_simpl; reflexivity] ]).
Qed.

(** X8.  Lines 375-381 and 482-488, the comparisons printed after a POST
    and after a PUT.  They are printed, never asserted: when [resp_py]
    is a dictionary with the three keys the run goes on whether the
    fields agree or not; a missing key raises [KeyError] and a value
    that is not a dictionary raises [TypeError], before any comparison
    is printed. *)
Theorem compare_fields_outcomes (w : World) v x y z :
  globals w !! "resp_py" = Some (VJson v) ->
  globals w !! "req_userId" = Some (VJson x) ->
  globals w !! "req_title" = Some (VJson y) ->
  globals w !! "req_completed" = Some (VJson z) ->
  let out := compare_fields w in
  match v with
  | JObj d =>
      match Dict.get "userId" d, Dict.get "title" d,
            Dict.get "completed" d with
      | Some x', Some y', Some z' =>
          fst out = Ok tt /\
          stdout (snd out)
          = (stdout w ++
               [[Lit (nl +:+ "req_userId == resp_userId? ");
                 Fmt (JBool (py_eq x x'))];
                [Lit "req_title == resp_title? "; Fmt (JBool (py_eq y y'))];
                [Lit "req_completed == resp_completed? ";
                 Fmt (JBool (py_eq z z'))]])%list
      | None, _, _ =>
          fst out = Raise (KeyError "userId") /\
          stdout (snd out) = stdout w
      | Some _, None, _ =>
          fst out = Raise (KeyError "title") /\
          stdout (snd out) = stdout w
      | Some _, Some _, None =>
          fst out = Raise (KeyError "completed") /\
          stdout (snd out) = stdout w
      end
  | _ => fst out = Raise TypeError /\ stdout (snd out) = stdout w
  end.
Proof.
  intros Hv Hx Hy Hz out. subst out.
  table_explore (@compare_fields Backend) w. cbn in Hv, Hx, Hy, Hz.
  unfold compare_fields.
  explore; table_leaf.
Qed.

(** X9.  The [then] branch of the PATCH section (lines 518-527), taken
    on 200 OK: of the decoded body only [title] is read.  A dictionary
    with a title ends the section normally, after the report and one
    comparison; one without raises [KeyError]; a value that is not a
    dictionary raises [TypeError]; a body that is not JSON ([Invalid])
    raises [JSONDecodeError] before anything is printed.  Nothing is
    said of a body that holds a float or a character above U+00FF
    ([Beyond]). *)
Theorem patch_section_ok_outcomes (u : string) dt y (w : World) r b' :
  Dict.get "title" dt = Some y ->
  exchange (json_request PATCH u (JObj dt)) (backend w) = (Some r, b') ->
  status_is r 200 "OK" = true ->
  let out := patch_section exchange u (JObj dt) w in
  match json_loads (text r) with
  | Invalid =>
      fst out = Raise JSONDecodeError /\ stdout (snd out) = stdout w
  | Decoded (JObj d) =>
      match Dict.get "title" d with
      | Some y' =>
          fst out = Ok tt /\
          stdout (snd out)
          = (stdout w ++
               [success_report "PATCH /todos/10" r;
                [Lit "req_title == resp_title? ";
                 Fmt (JBool (py_eq y y'))]])%list
      | None =>
          fst out = Raise (KeyError "title") /\
          stdout (snd out)
          = (stdout w ++ [success_report "PATCH /todos/10" r])%list
      end
  | Decoded _ =>
      fst out = Raise TypeError /\
      stdout (snd out)
      = (stdout w ++ [success_report "PATCH /todos/10" r])%list
  | Beyond => True
  end.
Proof.
  intros Hy E Hs out. subst out.
  table_explore (patch_section exchange u (JObj dt)) w. cbn in E.
  unfold patch_section, patch_success, patch_failure.
  explore; table_leaf.
Qed.

(** X10.  Lines 407-411: the POST with the body serialized by hand tests
    neither the status code nor the reason and never decodes the body.
    Whatever the service answers, the section prints the status code,
    binds [response_post2] and ends normally. *)
Theorem manual_post_checks_nothing (u : string) (todo : json)
        (w : World) r b' :
  exchange (data_request POST u (json_dumps todo)
              [("Content-Type", "application/json")])
           (backend w) = (Some r, b') ->
  let out := post_data_section exchange u todo
               (JObj [("Content-Type", JStr "application/json")]) w in
  fst out = Ok tt /\
  stdout (snd out) = (stdout w ++ [[Fmt (JInt (status_code r))]])%list /\
  globals (snd out) !! "response_post2" = Some (VResponse r).
Proof.
  intros E out. subst out.
  table_explore (post_data_section exchange u todo
               (JObj [("Content-Type", JStr "application/json")])) w.
  cbn in E.
  unfold post_data_section.
  explore; table_leaf.
Qed.

(** X11.  No statement of the script catches an exception: when the
    service cannot be reached for the first request, the script ends in
    [ConnectionError] with that one request sent and nothing printed. *)
Theorem script_stops_when_unreachable (w : World) b' :
  exchange (plain_request GET todos_1) (backend w) = (None, b') ->
  let out := script exchange w in
  fst out = Raise ConnectionError /\
  sent (snd out) = (sent w ++ [plain_request GET todos_1])%list /\
  stdout (snd out) = stdout w.
Proof.
  intros E out. subst out.
  destruct w as [g b s o]. cbn in E.
  unfold script. unfold bind at 1 2 3 4 5 6.
  unfold get_section. exec. rewrite E. repeat split; reflexivity.
Qed.

(** *** A service that refuses every request *)

Ltac lookup_literal :=
  match goal with
  | |- context [Dict.get ?k ?l] =>
      let v := eval vm_compute in (Dict.get k l) in
      lazymatch v with
      | Some _ => change (Dict.get k l) with v
      | None => change (Dict.get k l) with v
      end
  end.

Ltac answered Hall :=
  match goal with
  | |- context [exchange ?q ?b] =>
      let E := fresh "E" in
      pose proof (Hall q b) as E;
      destruct (exchange q b) as [? ?]; cbn [fst] in E; subst
  end.

(** X12.  No status stops the script; only a decode can.  When every
    request is answered by a response that fails both tests, and whose
    body is a dictionary with [userId], [title] and [completed], the
    script sends its seven requests and ends normally, having printed a
    report of failure for each of the five tested exchanges, the three
    lines of the decode of lines 322-336 and the status code of the
    manual POST.  The report of the DELETE names PATCH, as line 560
    does. *)
Theorem refusals_do_not_stop_the_script (w : World) r d x y z :
  (forall q b, fst (exchange q b) = Some r) ->
  status_is r 200 "OK" = false ->
  status_is r 201 "Created" = false ->
  json_loads (text r) = Decoded (JObj d) ->
  Dict.get "userId" d = Some x ->
  Dict.get "title" d = Some y ->
  Dict.get "completed" d = Some z ->
  let out := script exchange w in
  fst out = Ok tt /\
  sent (snd out) = (sent w ++ script_requests)%list /\
  stdout (snd out)
  = (stdout w ++
       [failure_report "GET /todos/1" r;
        [Lit "<class 'dict'>"];
        [Lit (nl +:+ nl +:+ "response_py in Python DataType --> ");
         Fmt (JObj d)];
        [Lit (nl +:+ "- Task '"); Fmt y;
         Lit "' executed by user "; Fmt x;
         Lit " is completed? "; Fmt z];
        failure_report "POST /todos" r;
        [Fmt (JInt (status_code r))];
        failure_report "PUT /todos" r;
        failure_report "PATCH /todos/10" r;
        failure_report "PATCH /todos/10" r])%list.
Proof.
  intros Hall H200 H201 Hv Hx Hy Hz out. subst out.
  table_explore (script exchange) w.
  unfold script, get_section, get_failure, deserialize_section,
    post_section, post_failure, post_data_section, put_section,
    put_failure, patch_section, patch_failure, delete_section,
    delete_failure, todo_item.
  exec;
    repeat (first [lookup_literal | answered Hall | next_case]; exec).
  intros ? <-; cbn [fst snd sent stdout].
  split; [reflexivity|].
  split; rewrite <- ?app_assoc; reflexivity.
Qed.

End Runs.

(** ** The script on simulated services *)

Local Open Scope string_scope.

(** C1 fails as stated: a GET answered 202 Accepted with a JSON body has
    a status in 200-299, yet the section reports it unsuccessful. *)
Lemma accepted_get_is_reported_unsuccessful :
  let r := reply 202 "Accepted" "{}" in
  let out := get_section scripted todos_1 (start [Some r]) in
  (200 <= status_code r <= 299)%Z /\
  json_loads (text r) = Decoded (JObj []) /\
  fst out = Ok tt /\
  stdout (snd out)
  = [[Lit "Unsuccessful GET /todos/1 status: "; Fmt (JInt 202);
      Lit "  reason: "; Fmt (JStr "Accepted")]].
Proof. vm_compute. repeat split; discriminate. Qed.

(** C2 fails as stated: a DELETE answered 204 No Content is reported
    unsuccessful. *)
Lemma no_content_delete_is_reported_unsuccessful :
  let r := reply 204 "No Content" EmptyString in
  let out := delete_section scripted todos_10 (start [Some r]) in
  fst out = Ok tt /\
  stdout (snd out)
  = [[Lit "Unsuccessful PATCH /todos/10 status: "; Fmt (JInt 204);
      Lit "  reason: "; Fmt (JStr "No Content")]].
Proof. vm_compute. split; reflexivity. Qed.

(** C3 fails as stated: a GET answered 200 OK with a body that is not
    JSON returns no outcome; the section ends with the exception
    [JSONDecodeError], nothing printed. *)
Lemma html_body_raises :
  let r := reply 200 "OK" "<html>not json</html>" in
  let out := get_section scripted todos_1 (start [Some r]) in
  fst out = Raise JSONDecodeError /\ stdout (snd out) = [].
Proof. vm_compute. split; reflexivity. Qed.


(** C1, as amended, on a service that answers 404 Not Found to each
    section, and on one that answers the GET with 200 OK and the item
    of the source, the POST with 201 Created and the new item, and the
    DELETE with 200 OK. *)
Lemma classification_is_two_way_witness :
  unsuccessful "GET /todos/1" not_found (start [Some not_found])
    (get_section scripted todos_1 (start [Some not_found])) /\
  (let r := reply 200 "OK" (json_dumps item_1) in
   let out := get_section scripted todos_1 (start [Some r]) in
   no_failure_report (start [Some r]) out /\
   (exists rest,
       stdout (snd out) = success_report "GET /todos/1" r :: rest) /\
   globals (snd out) !! "resp_py" = Some (VJson item_1)) /\
  unsuccessful "POST /todos" not_found (start [Some not_found])
    (post_section scripted todos (JObj honey) (start [Some not_found])) /\
  (let out := post_section scripted todos (JObj honey)
                (start [Some created]) in
   no_failure_report (start [Some created]) out /\
   (exists rest,
       stdout (snd out) = success_report "POST /todos" created :: rest) /\
   globals (snd out) !! "resp_py"
   = Some (VJson (JObj (Dict.set "id" (JInt 201) honey)))) /\
  unsuccessful "PUT /todos" not_found
    (start [Some not_found; Some not_found])
    (put_section scripted todos_10 (JObj honey)
       (start [Some not_found; Some not_found])) /\
  unsuccessful "PATCH /todos/10" not_found (start [Some not_found])
    (patch_section scripted todos_10 (JObj happy)
       (start [Some not_found])) /\
  unsuccessful "PATCH /todos/10" not_found (start [Some not_found])
    (delete_section scripted todos_10 (start [Some not_found])) /\
  (let r := reply 200 "OK" "{}" in
   let w := after_put not_found [Some r] in
   let out := delete_section scripted todos_10 w in
   no_failure_report w out /\
   fst out = Ok tt /\
   stdout (snd out) = [success_report "DELETE /todos/10" not_found]).
Proof.
  destruct (classification_is_two_way scripted)
    as (Hget & Hpost & Hput & Hpatch & Hdelete).
  split; [|split; [|split; [|split; [|split; [|split; [|split]]]]]].
  - apply (proj1 (proj2 (proj2 (Hget todos_1 (start [Some not_found])
                                     not_found [] eq_refl)))).
    discriminate.
  - destruct (proj2 (proj2 (proj2
                (Hget todos_1
                      (start [Some (reply 200 "OK" (json_dumps item_1))])
                      (reply 200 "OK" (json_dumps item_1)) [] eq_refl)))
               eq_refl eq_refl) as [Hquiet Hdecoded].
    split; [exact Hquiet | exact (Hdecoded item_1 eq_refl)].
  - apply (proj1 (proj2 (proj2
             (Hpost todos honey (JInt 1) (JStr "By honey")
                    (JBool false) (start [Some not_found])
                    not_found []
                    eq_refl eq_refl eq_refl eq_refl)))).
    discriminate.
  - destruct (proj2 (proj2 (proj2
                (Hpost todos honey (JInt 1) (JStr "By honey")
                       (JBool false) (start [Some created]) created []
                       eq_refl eq_refl eq_refl eq_refl)))
               eq_refl eq_refl) as [Hquiet Hdecoded].
    split; [exact Hquiet|].
    exact (Hdecoded (JObj (Dict.set "id" (JInt 201) honey)) eq_refl).
  - apply (proj1 (proj2 (proj2
             (Hput todos_10 honey (JInt 1) (JStr "By honey")
                   (JBool false)
                   (start [Some not_found; Some not_found])
                   not_found [Some not_found] not_found []
                   eq_refl eq_refl eq_refl eq_refl eq_refl)))).
    discriminate.
  - apply (proj1 (proj2 (proj2
             (Hpatch todos_10 happy (JStr "Happy Happy")
                     (start [Some not_found]) not_found []
                     eq_refl eq_refl)))).
    discriminate.
  - apply (proj1 (proj2 (proj2
             (Hdelete todos_10 (start [Some not_found])
                      not_found [] eq_refl)))).
    discriminate.
  - destruct (proj2 (proj2 (proj2
                (Hdelete todos_10
                         (after_put not_found [Some (reply 200 "OK" "{}")])
                         (reply 200 "OK" "{}") [] eq_refl)))
               eq_refl eq_refl) as [Hquiet Hreport].
    split; [exact Hquiet | exact (Hreport not_found eq_refl)].
Defined.


(** C9 on replies that carry the expected status with another reason. *)
Lemma success_needs_status_and_reason_witness :
  unsuccessful "GET /todos/1" wrong_reason (start [Some wrong_reason])
    (get_section scripted todos_1 (start [Some wrong_reason])) /\
  unsuccessful "POST /todos" (reply 201 "Made" "{}")
    (start [Some (reply 201 "Made" "{}")])
    (post_section scripted todos (JObj honey)
       (start [Some (reply 201 "Made" "{}")])) /\
  unsuccessful "PUT /todos" wrong_reason
    (start [Some not_found; Some wrong_reason])
    (put_section scripted todos_10 (JObj honey)
       (start [Some not_found; Some wrong_reason])) /\
  unsuccessful "PATCH /todos/10" wrong_reason (start [Some wrong_reason])
    (patch_section scripted todos_10 (JObj happy)
       (start [Some wrong_reason])) /\
  unsuccessful "PATCH /todos/10" wrong_reason (start [Some wrong_reason])
    (delete_section scripted todos_10 (start [Some wrong_reason])).
Proof.
  destruct (success_needs_status_and_reason scripted)
    as (Hget & Hpost & Hput & Hpatch & Hdelete).
  split; [|split; [|split; [|split]]].
  - apply (proj2 (Hget todos_1 (start [Some wrong_reason])
                       wrong_reason [] eq_refl));
      [reflexivity | discriminate].
  - apply (proj2 (Hpost todos honey (JInt 1) (JStr "By honey")
                        (JBool false)
                        (start [Some (reply 201 "Made" "{}")])
                        (reply 201 "Made" "{}") []
                        eq_refl eq_refl eq_refl eq_refl));
      [reflexivity | discriminate].
  - apply (proj2 (Hput todos_10 honey (JInt 1) (JStr "By honey")
                       (JBool false)
                       (start [Some not_found; Some wrong_reason])
                       not_found [Some wrong_reason] wrong_reason []
                       eq_refl eq_refl eq_refl eq_refl eq_refl));
      [reflexivity | discriminate].
  - apply (proj2 (Hpatch todos_10 happy (JStr "Happy Happy")
                         (start [Some wrong_reason]) wrong_reason []
                         eq_refl eq_refl));
      [reflexivity | discriminate].
  - apply (proj2 (Hdelete todos_10 (start [Some wrong_reason])
                          wrong_reason [] eq_refl));
      [reflexivity | discriminate].
Defined.


(** C2, as amended, on a 200 OK reply with an empty body and on a 204
    reply. *)
Lemma delete_succeeds_on_200_OK_only_witness :
  (let w := after_put not_found [Some (reply 200 "OK" EmptyString)] in
   let out := delete_section scripted todos_10 w in
   fst out = Ok tt /\
   (exists line, stdout (snd out) = (stdout w ++ [line])%list /\
                 is_success_report line = true) /\
   globals (snd out) !! "resp_py" = globals w !! "resp_py") /\
  (let r := reply 204 "No Content" EmptyString in
   let w := after_put not_found [Some r] in
   unsuccessful "PATCH /todos/10" r w (delete_section scripted todos_10 w)).
Proof.
  split.
  - apply (proj1 (delete_succeeds_on_200_OK_only scripted todos_10
                    (after_put not_found
                               [Some (reply 200 "OK" EmptyString)])
                    not_found (reply 200 "OK" EmptyString) []
                    eq_refl eq_refl));
      reflexivity.
  - apply (proj2 (delete_succeeds_on_200_OK_only scripted todos_10
                    (after_put not_found
                               [Some (reply 204 "No Content" EmptyString)])
                    not_found (reply 204 "No Content" EmptyString) []
                    eq_refl eq_refl)).
    left. discriminate.
Defined.

(** C3, as amended, on replies that pass the test with an HTML body, and
    on an unreachable service. *)
Lemma undecodable_body_raises_witness :
  (let out := get_section scripted todos_1 (start [Some html]) in
   fst out = Raise JSONDecodeError /\ stdout (snd out) = []) /\
  (let r := reply 201 "Created" "<html>not json</html>" in
   let out := post_section scripted todos (JObj honey) (start [Some r]) in
   fst out = Raise JSONDecodeError /\ stdout (snd out) = []) /\
  (let out := put_section scripted todos_10 (JObj honey)
                (start [Some not_found; Some html]) in
   fst out = Raise JSONDecodeError /\ stdout (snd out) = []) /\
  (let out := patch_section scripted todos_10 (JObj happy)
                (start [Some html]) in
   fst out = Raise JSONDecodeError /\ stdout (snd out) = []) /\
  fst (get_section scripted todos_1 (start [None])) = Raise ConnectionError.
Proof.
  destruct (undecodable_body_raises scripted)
    as (Hget & Hpost & Hput & Hpatch & Hdown & _).
  split; [|split; [|split; [|split]]].
  - apply (Hget todos_1 (start [Some html]) html [] eq_refl);
      reflexivity.
  - apply (Hpost todos honey (JInt 1) (JStr "By honey") (JBool false)
                 (start [Some (reply 201 "Created"
                                     "<html>not json</html>")])
                 (reply 201 "Created" "<html>not json</html>") []
                 eq_refl eq_refl eq_refl eq_refl);
      reflexivity.
  - apply (Hput todos_10 honey (JInt 1) (JStr "By honey") (JBool false)
                (start [Some not_found; Some html])
                not_found [Some html] html []
                eq_refl eq_refl eq_refl eq_refl eq_refl);
      reflexivity.
  - apply (Hpatch todos_10 happy (JStr "Happy Happy")
                  (start [Some html]) html [] eq_refl eq_refl);
      reflexivity.
  - apply (Hdown todos_1 (start [None]) [] eq_refl).
Defined.


Lemma honey_wf : wf_json (JObj honey).
Proof.
  split; [|repeat split].
  apply (bool_decide_unpack _). vm_compute. exact I.
Defined.

Lemma happy_wf : wf_json (JObj happy).
Proof.
  split; [|repeat split].
  apply (bool_decide_unpack _). vm_compute. exact I.
Defined.


(** C5 on the payload of the source. *)
Lemma put_sends_the_mapping_alone_witness :
  exists q,
    sent (snd (put_section scripted todos_10 (JObj honey)
                 (start [Some not_found; Some wrong_reason])))
    = [plain_request GET todos_10; q] /\
    method q = PUT /\
    body q = Some (json_dumps (JObj honey)) /\
    json_loads (json_dumps (JObj honey)) = Decoded (JObj honey).
Proof.
  exact (put_sends_the_mapping_alone scripted todos_10 honey
           (JInt 1) (JStr "By honey") (JBool false)
           (start [Some not_found; Some wrong_reason])
           not_found [Some wrong_reason]
           honey_wf eq_refl eq_refl eq_refl eq_refl).
Defined.

(** C6 on the payload of the source. *)
Lemma patch_sends_the_partial_mapping_alone_witness :
  exists q text,
    sent (snd (patch_section scripted todos_10 (JObj happy)
                 (start [Some wrong_reason])))
    = [q] /\
    method q = PATCH /\
    body q = Some text /\
    text = json_dumps (JObj happy) /\
    json_loads text = Decoded (JObj happy) /\
    forall sent_fields k,
      json_loads text = Decoded (JObj sent_fields) ->
      Dict.get k happy = None -> Dict.get k sent_fields = None.
Proof.
  exact (patch_sends_the_partial_mapping_alone scripted todos_10 happy
           (JStr "Happy Happy") (start [Some wrong_reason])
           happy_wf eq_refl).
Defined.

(** C8 on a service that holds one item. *)
Lemma get_twice_is_identical_witness :
  let first := get_section (serving (JObj honey)) todos_1 (start tt) in
  let second := get_section (serving (JObj honey)) todos_1 (snd first) in
  fst second = fst first /\
  globals (snd second) !! "resp_py" = globals (snd first) !! "resp_py" /\
  (exists lines,
      stdout (snd first) = (stdout (start tt) ++ lines)%list /\
      stdout (snd second) = (stdout (snd first) ++ lines)%list) /\
  (forall v,
      status_code (reply 200 "OK" (json_dumps (JObj honey))) = 200%Z ->
      reason (reply 200 "OK" (json_dumps (JObj honey))) = "OK" ->
      json_loads (text (reply 200 "OK" (json_dumps (JObj honey))))
      = Decoded v ->
      globals (snd first) !! "resp_py" = Some (VJson v) /\
      globals (snd second) !! "resp_py" = Some (VJson v)).
Proof.
  exact (get_twice_is_identical (serving (JObj honey)) todos_1 (start tt)
           (reply 200 "OK" (json_dumps (JObj honey))) eq_refl).
Defined.

(** C10 on a service that answers 404 to the GET of the PUT section and
    200 OK to the PUT and to the DELETE: both success reports print 404
    Not Found. *)
Lemma success_reports_print_the_earlier_get_witness :
  (let out := put_section scripted todos_10 (JObj honey)
                (start [Some not_found; Some (reply 200 "OK" "{}")]) in
   (exists rest,
       stdout (snd out)
       = [Lit (nl +:+ " Successful PUT /todos, status:  ");
          Fmt (JInt 404); Lit " reason: "; Fmt (JStr "Not Found")]
           :: rest) /\
   globals (snd out) !! "response" = Some (VResponse not_found)) /\
  globals (snd (patch_section scripted todos_10 (JObj happy)
                  (after_put not_found [Some wrong_reason]))) !! "response"
  = Some (VResponse not_found) /\
  (let out := delete_section scripted todos_10
                (after_put not_found [Some (reply 200 "OK" "{}")]) in
   fst out = Ok tt /\
   stdout (snd out)
   = [[Lit (nl +:+ " Successful DELETE /todos/10, status:  ");
       Fmt (JInt 404); Lit " reason: "; Fmt (JStr "Not Found")]]).
Proof.
  destruct (success_reports_print_the_earlier_get scripted)
    as (Hput & Hpatch & Hdelete).
  split; [|split].
  - exact (Hput todos_10 honey (JInt 1) (JStr "By honey") (JBool false)
                (start [Some not_found; Some (reply 200 "OK" "{}")])
                not_found [Some (reply 200 "OK" "{}")]
                (reply 200 "OK" "{}") [] (JObj [])
                eq_refl eq_refl eq_refl eq_refl eq_refl
                eq_refl eq_refl eq_refl).
  - rewrite (Hpatch todos_10 (JObj happy)
                    (after_put not_found [Some wrong_reason])).
    reflexivity.
  - exact (Hdelete todos_10
                   (after_put not_found [Some (reply 200 "OK" "{}")])
                   not_found (reply 200 "OK" "{}") []
                   eq_refl eq_refl eq_refl eq_refl).
Defined.

(** X4 on the body of the 404 of the service, an empty dictionary, on a
    list, and on the item the source shows. *)
Lemma deserialize_section_outcomes_witness :
  (let out := deserialize_section (holding "response_get" not_found []) in
   fst out = Raise (KeyError "userId") /\
   stdout (snd out)
   = [[Lit "<class 'dict'>"];
      [Lit (nl +:+ nl +:+ "response_py in Python DataType --> ");
       Fmt (JObj [])]]) /\
  (let out := deserialize_section
                (holding "response_get" (reply 200 "OK" "[1, 2]") []) in
   fst out = Raise TypeError /\
   stdout (snd out)
   = [[Lit "<class 'list'>"];
      [Lit (nl +:+ nl +:+ "response_py in Python DataType --> ");
       Fmt (JArr [JInt 1; JInt 2])]]) /\
  (let out := deserialize_section
                (holding "response_get"
                         (reply 200 "OK" (json_dumps item_1)) []) in
   fst out = Ok tt /\
   globals (snd out) !! "resp_py" = Some (VJson item_1) /\
   stdout (snd out)
   = [[Lit "<class 'dict'>"];
      [Lit (nl +:+ nl +:+ "response_py in Python DataType --> ");
       Fmt item_1];
      [Lit (nl +:+ "- Task '"); Fmt (JStr "delectus aut autem");
       Lit "' executed by user "; Fmt (JInt 1);
       Lit " is completed? "; Fmt (JBool false)]]).
Proof.
  split; [|split].
  - exact (deserialize_section_outcomes
             (holding "response_get" not_found []) not_found eq_refl).
  - exact (deserialize_section_outcomes
             (holding "response_get" (reply 200 "OK" "[1, 2]") [])
             (reply 200 "OK" "[1, 2]") eq_refl).
  - exact (deserialize_section_outcomes
             (holding "response_get"
                      (reply 200 "OK" (json_dumps item_1)) [])
             (reply 200 "OK" (json_dumps item_1)) eq_refl).
Defined.


(** X6 on the 404 of the service, whose body is an empty dictionary. *)
Lemma failed_get_is_decoded_all_the_same_witness :
  let out := bind (get_section scripted todos_1)
                  (fun _ => deserialize_section)
                  (start [Some not_found]) in
  (exists rest,
      stdout (snd out) = failure_report "GET /todos/1" not_found :: rest) /\
  fst out = Raise (KeyError "userId").
Proof.
  exact (failed_get_is_decoded_all_the_same scripted todos_1
           (start [Some not_found]) not_found [] eq_refl eq_refl).
Defined.

(** X7 on the item the source shows for /todos/1. *)
Lemma get_then_decode_agree_witness :
  let w := start [Some (reply 200 "OK" (json_dumps item_1))] in
  let out := bind (get_section scripted todos_1)
                  (fun _ => deserialize_section) w in
  fst out = Ok tt /\
  globals (snd out) !! "resp_py"
  = globals (snd (get_section scripted todos_1 w)) !! "resp_py".
Proof.
  exact (get_then_decode_agree scripted todos_1
           (start [Some (reply 200 "OK" (json_dumps item_1))])
           (reply 200 "OK" (json_dumps item_1)) []
           eq_refl eq_refl eq_refl).
Defined.

(** X8 on a reply that changed the user: the run goes on and prints
    [False] for that field. *)
Lemma compare_fields_outcomes_witness :
  let out := compare_fields
               (compared (JObj [("userId", JInt 2);
                                ("title", JStr "By honey");
                                ("completed", JBool false)])
                         (JInt 1) (JStr "By honey") (JBool false)) in
  fst out = Ok tt /\
  stdout (snd out)
  = [[Lit (nl +:+ "req_userId == resp_userId? "); Fmt (JBool false)];
     [Lit "req_title == resp_title? "; Fmt (JBool true)];
     [Lit "req_completed == resp_completed? "; Fmt (JBool true)]].
Proof.
  exact (compare_fields_outcomes
           (compared (JObj [("userId", JInt 2);
                            ("title", JStr "By honey");
                            ("completed", JBool false)])
                     (JInt 1) (JStr "By honey") (JBool false))
           _ (JInt 1) (JStr "By honey") (JBool false)
           eq_refl eq_refl eq_refl eq_refl).
Defined.

(** X9 on a 200 OK that carries another title, and on one that carries
    none. *)
Lemma patch_section_ok_outcomes_witness :
  (let r := reply 200 "OK" (json_dumps (JObj [("title", JStr "Sad")])) in
   let out := patch_section scripted todos_10 (JObj happy)
                (start [Some r]) in
   fst out = Ok tt /\
   stdout (snd out)
   = [success_report "PATCH /todos/10" r;
      [Lit "req_title == resp_title? "; Fmt (JBool false)]]) /\
  (let r := reply 200 "OK" "{}" in
   let out := patch_section scripted todos_10 (JObj happy)
                (start [Some r]) in
   fst out = Raise (KeyError "title") /\
   stdout (snd out) = [success_report "PATCH /todos/10" r]).
Proof.
  split.
  - exact (patch_section_ok_outcomes scripted todos_10 happy
             (JStr "Happy Happy")
             (start [Some (reply 200 "OK"
                             (json_dumps (JObj [("title", JStr "Sad")])))])
             (reply 200 "OK" (json_dumps (JObj [("title", JStr "Sad")])))
             [] eq_refl eq_refl eq_refl).
  - exact (patch_section_ok_outcomes scripted todos_10 happy
             (JStr "Happy Happy")
             (start [Some (reply 200 "OK" "{}")])
             (reply 200 "OK" "{}") [] eq_refl eq_refl eq_refl).
Defined.

(** X10 on a service that refuses the manual POST. *)
Lemma manual_post_checks_nothing_witness :
  let out := post_data_section scripted todos (JObj honey)
               (JObj [("Content-Type", JStr "application/json")])
               (start [Some unprocessable]) in
  fst out = Ok tt /\
  stdout (snd out) = [[Fmt (JInt 422)]] /\
  globals (snd out) !! "response_post2" = Some (VResponse unprocessable).
Proof.
  exact (manual_post_checks_nothing scripted todos (JObj honey)
           (start [Some unprocessable]) unprocessable [] eq_refl).
Defined.

(** X11 on a service that never answers. *)
Lemma script_stops_when_unreachable_witness :
  let out := script scripted (start []) in
  fst out = Raise ConnectionError /\
  sent (snd out) = [plain_request GET todos_1] /\
  stdout (snd out) = [].
Proof.
  exact (script_stops_when_unreachable scripted (start []) [] eq_refl).
Defined.

(** X12 on a service that answers 429 to every request, with the item
    of the source as body. *)
Lemma refusals_do_not_stop_the_script_witness :
  let r := reply 429 "Too Many Requests" (json_dumps item_1) in
  let out := script (answering r) (start tt) in
  fst out = Ok tt /\
  sent (snd out) = script_requests /\
  nth_error (stdout (snd out)) 8
  = Some [Lit "Unsuccessful PATCH /todos/10 status: "; Fmt (JInt 429);
          Lit "  reason: "; Fmt (JStr "Too Many Requests")].
Proof.
  pose proof (refusals_do_not_stop_the_script
                (answering (reply 429 "Too Many Requests"
                                  (json_dumps item_1)))
                (start tt)
                (reply 429 "Too Many Requests" (json_dumps item_1))
                [("userId", JInt 1); ("id", JInt 1);
                 ("title", JStr "delectus aut autem");
                 ("completed", JBool false)]
                (JInt 1) (JStr "delectus aut autem") (JBool false)
                (fun _ _ => eq_refl)
                eq_refl eq_refl eq_refl eq_refl eq_refl eq_refl)
    as (Hok & Hsent & Hout).
  split; [exact Hok|]. split; [exact Hsent|].
  rewrite Hout. reflexivity.
Defined.

(** The whole script against the replies the source records: it runs to
    the end and prints what the comments of the source show, the five
    success reports among it. *)
Example script_on_recorded_replies :
  let out := script scripted (start recorded) in
  fst out = Ok tt /\
  map method (sent (snd out)) = [GET; POST; POST; GET; PUT; PATCH; DELETE] /\
  stdout (snd out)
  = [[Lit (nl +:+ " Successful GET /todos/1, status:  "); Fmt (JInt 200);
      Lit " reason: "; Fmt (JStr "OK")];
     [Lit (nl +:+ "resp_userId: "); Fmt (JInt 1)];
     [Lit "resp_title: "; Fmt (JStr "delectus aut autem")];
     [Lit "resp_completed: "; Fmt (JBool false)];
     [Lit (nl +:+ " *** Data directly from response_get.json(): "
              +:+ nl +:+ "userId: ");
      Fmt (JInt 1);
      Lit (" " +:+ nl +:+ "title: ");
      Fmt (JStr "** -- delectus aut autem -- **");
      Lit (" " +:+ nl +:+ "completed? ");
      Fmt (JBool false);
      Lit (" " +:+ nl)];
     [Lit "<class 'dict'>"];
     [Lit (nl +:+ nl +:+ "response_py in Python DataType --> ");
      Fmt item_1];
     [Lit (nl +:+ "- Task '"); Fmt (JStr "delectus aut autem");
      Lit "' executed by user "; Fmt (JInt 1);
      Lit " is completed? "; Fmt (JBool false)];
     [Lit (nl +:+ " Successful POST /todos, status:  "); Fmt (JInt 201);
      Lit " reason: "; Fmt (JStr "Created")];
     [Lit (nl +:+ "req_userId == resp_userId? "); Fmt (JBool true)];
     [Lit "req_title == resp_title? "; Fmt (JBool true)];
     [Lit "req_completed == resp_completed? "; Fmt (JBool true)];
     [Fmt (JInt 201)];
     [Lit (nl +:+ " Successful PUT /todos, status:  "); Fmt (JInt 200);
      Lit " reason: "; Fmt (JStr "OK")];
     [Lit (nl +:+ "req_userId == resp_userId? "); Fmt (JBool true)];
     [Lit "req_title == resp_title? "; Fmt (JBool true)];
     [Lit "req_completed == resp_completed? "; Fmt (JBool true)];
     [Lit (nl +:+ " Successful PATCH /todos/10, status:  "); Fmt (JInt 200);
      Lit " reason: "; Fmt (JStr "OK")];
     [Lit "req_title == resp_title? "; Fmt (JBool true)];
     [Lit (nl +:+ " Successful DELETE /todos/10, status:  ");
      Fmt (JInt 200); Lit " reason: "; Fmt (JStr "OK")]].
Proof. vm_compute. repeat split. Qed.
